(** * cvec-db: the manifest builder of [src/cvec_db/cli.py]

    A shallow embedding of [create_manifest] and of the [manifest]
    sub-command, together with the parts of the Python runtime they rest on:
    [pathlib] (glob, exists, stat, write_text, mkdir), the buffered binary
    reader, [hashlib.sha256], [datetime.isoformat], [json.dumps] and [repr];
    and of the sub-commands [build], [download_json] and [extract_parquet]
    over the interface of the [cvec] package they call.

    Conventions of the model.
    - A Python [str] is a Rocq [string]; every character stands for the code
      point of the same number, so the model covers text whose code points
      are below 256.  [str] comparison is comparison of code points.
    - A [Path] is the list of its components, relative to the root of the
      modelled tree (the working directory of the process).  The components
      are plain names (no [.] or [..]).
    - File contents are [list byte].
    - I/O runs in a state-and-exception monad over a [World]: the file tree,
      the clock and the two output streams.
    - The commands that call the [cvec] package run over the world and the
      state of that package, of which nothing is assumed: its operations are
      arbitrary functions on both.
    - Limits of the model.  Directories carry no permissions (every
      directory can be listed and written to), a write is one step (it
      cannot fail once the file is open, as it does on a full disk), and
      there are no links.  What [polars] makes of a directory is not
      modelled: [read_parquet_len] raises there what [open] raises.  Where a
      statement would depend on these, it is made relative to the outcome
      of the write. *)

From Stdlib Require Import ZArith Strings.Byte Strings.Ascii Strings.String.
From stdpp Require Import gmap strings list fin_maps sorting pretty.
From Equations Require Import Equations.

Local Arguments String.append : simpl nomatch.
Set Warnings "-abstract-large-number,-register-all".

Local Open Scope string_scope.
Local Open Scope list_scope.
Local Open Scope Z_scope.

(** * Part I: the model *)

(** ** Python [str] and sequences: ordering *)

(** Python compares sequences element by element; a proper prefix is
    smaller. *)
Fixpoint lex_compare {A : Type} (cmp : A → A → comparison) (l1 l2 : list A)
    : comparison :=
  match l1, l2 with
  | [], [] => Eq
  | [], _ :: _ => Lt
  | _ :: _, [] => Gt
  | x :: l1', y :: l2' =>
      match cmp x y with
      | Eq => lex_compare cmp l1' l2'
      | c => c
      end
  end.

(** [a < b] on [str]: by code points. *)
Definition str_lt (a b : string) : Prop := String.compare a b = Lt.

(** ** [pathlib] paths *)

Definition Path : Type := list string.

(** [Path.name]: the final component ([''] when there is none). *)
Definition path_name (p : Path) : string := List.last p "".

(** [Path.parent / name]. *)
Definition path_join (p : Path) (name : string) : Path := p ++ [name].

(** [str(path)]: the components joined by ['/']; the empty path prints as
    ['.']. *)
Definition path_str (p : Path) : string :=
  match p with
  | [] => "."
  | _ => String.concat "/" p
  end.

(** Paths order as the lists of their parts do. *)
Definition path_compare : Path → Path → comparison := lex_compare String.compare.

Definition path_le (p q : Path) : Prop := path_compare p q ≠ Gt.

Global Instance path_le_dec p q : Decision (path_le p q).
Proof. unfold path_le. apply _. Defined.

(** ** [fnmatch]: shell-style patterns

    The fragment without bracket expressions: [*] matches any run of
    characters (also an empty one, also a leading dot, as in [pathlib]),
    [?] matches one character, any other character matches itself.
    Matching is case-sensitive (POSIX). *)

Fixpoint fnmatch_from (pat : string) : string → bool :=
  match pat with
  | EmptyString => λ name, if name is EmptyString then true else false
  | String c pat' =>
      if Ascii.eqb c "*" then
        fix star (name : string) : bool :=
          fnmatch_from pat' name ||
          match name with
          | EmptyString => false
          | String _ name' => star name'
          end
      else if Ascii.eqb c "?" then
        λ name,
          match name with
          | EmptyString => false
          | String _ name' => fnmatch_from pat' name'
          end
      else
        λ name,
          match name with
          | EmptyString => false
          | String d name' => Ascii.eqb c d && fnmatch_from pat' name'
          end
  end.

Definition fnmatchcase (name pat : string) : bool := fnmatch_from pat name.

(** A pattern character that stands for itself. *)
Definition literal_char (c : ascii) : bool :=
  negb (Ascii.eqb c "*") && negb (Ascii.eqb c "?").

(** ** The file tree *)

(** A regular file: its bytes, its permission bits for the running user,
    and possibly the offset of a sector the device fails to read. *)
Record file : Type := mk_file {
  f_data : list byte;
  f_readable : bool;
  f_writable : bool;
  f_bad : option nat
}.

(** Directories map names to nodes; directory permissions are not
    modelled (every directory can be listed and written to). *)
Inductive node : Type :=
  | File (f : file)
  | Dir (entries : gmap string node).

(** Path resolution, with the two ways it fails. *)
Inductive lookup_result : Type :=
  | Found (n : node)
  | ENOENT
  | ENOTDIR.

Fixpoint walk (n : node) (p : Path) : lookup_result :=
  match p with
  | [] => Found n
  | c :: p' =>
      match n with
      | File _ => ENOTDIR
      | Dir es =>
          match es !! c with
          | Some n' => walk n' p'
          | None => ENOENT
          end
      end
  end.

(** A file created by [open(..., 'w')]. *)
Definition new_file (data : list byte) : file :=
  {| f_data := data; f_readable := true; f_writable := true; f_bad := None |}.

(** Truncate-and-write keeps the permission bits; the fresh blocks are
    readable. *)
Definition overwrite (f : file) (data : list byte) : file :=
  {| f_data := data; f_readable := f_readable f; f_writable := f_writable f;
     f_bad := None |}.

(** ** Exceptions, outcomes, the world *)

Inductive exn : Type :=
  | FileNotFoundError (p : Path)
  | NotADirectoryError (p : Path)
  | IsADirectoryError (p : Path)
  | PermissionError (p : Path)
  | OSError_EIO (p : Path)
  | ParquetError (p : Path)
  | Exit (code : Z).

Inductive outcome (A : Type) : Type :=
  | Return (a : A)
  | Raise (e : exn).
Arguments Return {A} a.
Arguments Raise {A} e.

(** An aware [datetime] in UTC. *)
Record datetime : Type := mk_datetime {
  year : N; month : N; day : N;
  hour : N; minute : N; second : N; microsecond : N
}.

Record World : Type := mk_world {
  w_root : node;
  w_clock : datetime;
  w_stdout : list string;
  w_stderr : list string
}.

Definition M (A : Type) : Type := World → outcome A * World.

Global Instance M_ret : MRet M := λ A a w, (Return a, w).
Global Instance M_bind : MBind M := λ A B k m w,
  match m w with
  | (Return a, w') => k a w'
  | (Raise e, w') => (Raise e, w')
  end.

Definition raise {A} (e : exn) : M A := λ w, (Raise e, w).

(** ** [pathlib] and file objects *)

(** [Path.exists()]: a failed lookup of either kind answers [False]. *)
Definition path_exists (p : Path) : M bool := λ w,
  (Return (if walk (w_root w) p is Found _ then true else false), w).

(** [Path.glob(pattern)] for a one-component pattern: the children of the
    directory whose name matches; nothing when the path is not a
    directory.  The listing order is the directory's own. *)
Definition path_glob (dir : Path) (pat : string) : M (list Path) := λ w,
  (Return
     match walk (w_root w) dir with
     | Found (Dir es) =>
         path_join dir <$>
           filter (λ name, fnmatchcase name pat = true) (elements (dom es))
     | _ => []
     end, w).

(** [sorted(paths)]. *)
Definition sorted (ps : list Path) : list Path := merge_sort path_le ps.

(** An open binary reader: the file and the read position. *)
Record handle : Type := mk_handle {
  h_path : Path;
  h_file : file;
  h_pos : nat
}.

(** [open(p, 'rb')]. *)
Definition open_rb (p : Path) : M handle := λ w,
  (match walk (w_root w) p with
   | Found (File f) =>
       if f_readable f then Return {| h_path := p; h_file := f; h_pos := 0 |}
       else Raise (PermissionError p)
   | Found (Dir _) => Raise (IsADirectoryError p)
   | ENOENT => Raise (FileNotFoundError p)
   | ENOTDIR => Raise (NotADirectoryError p)
   end, w).

(** Does the bad sector, if any, lie in [[lo, hi)]? *)
Definition hits_bad (f : file) (lo hi : nat) : bool :=
  match f_bad f with
  | Some b => bool_decide (lo ≤ b < hi)%nat
  | None => false
  end.

(** [f.read(n)] on a buffered reader of a regular file: the next [n] bytes,
    fewer at the end of the file, none after it. *)
Definition handle_read (h : handle) (n : nat) : M (list byte * handle) := λ w,
  let chunk := take n (drop (h_pos h) (f_data (h_file h))) in
  let pos' := (h_pos h + length chunk)%nat in
  (if hits_bad (h_file h) (h_pos h) pos' then Raise (OSError_EIO (h_path h))
   else Return (chunk, {| h_path := h_path h; h_file := h_file h; h_pos := pos' |}),
   w).

Record stat_result : Type := { st_size : Z }.

(** [Path.stat()]; only regular files carry a size here. *)
Definition path_stat (p : Path) : M stat_result := λ w,
  (match walk (w_root w) p with
   | Found (File f) => Return {| st_size := Z.of_nat (length (f_data f)) |}
   | Found (Dir _) => Return {| st_size := 0 |}
   | ENOENT => Raise (FileNotFoundError p)
   | ENOTDIR => Raise (NotADirectoryError p)
   end, w).

(** Opening [p] for writing below [n] and storing [data]: the tree after
    the write, or the error [open] raises. [full] is the path as the caller
    gave it, for the error. *)
Fixpoint tree_write (full : Path) (n : node) (p : Path) (data : list byte)
    : outcome node :=
  match p with
  | [] =>
      match n with
      | File f =>
          if f_writable f then Return (File (overwrite f data))
          else Raise (PermissionError full)
      | Dir _ => Raise (IsADirectoryError full)
      end
  | c :: p' =>
      match n with
      | File _ => Raise (NotADirectoryError full)
      | Dir es =>
          match es !! c with
          | Some n' =>
              match tree_write full n' p' data with
              | Return n'' => Return (Dir (<[c := n'']> es))
              | Raise e => Raise e
              end
          | None =>
              match p' with
              | [] => Return (Dir (<[c := File (new_file data)]> es))
              | _ :: _ => Raise (FileNotFoundError full)
              end
          end
      end
  end.

(** UTF-8 of a [str] (code points below 256 take one or two bytes). *)
Definition byte_of_N (n : N) : byte :=
  default x00 (Byte.of_N (n mod 256)%N).

Definition utf8_char (c : ascii) : list byte :=
  let n := N_of_ascii c in
  if (n <? 128)%N then [byte_of_N n]
  else [byte_of_N (192 + n / 64)%N; byte_of_N (128 + n mod 64)%N].

Definition encode_utf8 (s : string) : list byte :=
  flat_map utf8_char (list_ascii_of_string s).

(** [Path.write_text(text)]. *)
Definition write_text (p : Path) (text : string) : M unit := λ w,
  match tree_write p (w_root w) p (encode_utf8 text) with
  | Return root' =>
      (Return (),
       {| w_root := root'; w_clock := w_clock w;
          w_stdout := w_stdout w; w_stderr := w_stderr w |})
  | Raise e => (Raise e, w)
  end.

(** [datetime.now(timezone.utc)]. *)
Definition datetime_now_utc : M datetime := λ w, (Return (w_clock w), w).

(** [typer.echo(message, err=...)]: one line on stdout or stderr. *)
Definition echo (message : string) (err : bool) : M unit := λ w,
  (Return (),
   if err then
     {| w_root := w_root w; w_clock := w_clock w;
        w_stdout := w_stdout w; w_stderr := w_stderr w ++ [message] |}
   else
     {| w_root := w_root w; w_clock := w_clock w;
        w_stdout := w_stdout w ++ [message]; w_stderr := w_stderr w |}).

(** ** SHA-256 (FIPS 180-4) *)

Definition Z_of_byte (b : byte) : Z := Z.of_N (Byte.to_N b).
Definition byte_of_Z (z : Z) : byte := byte_of_N (Z.to_N (z mod 256)).

(** Big-endian: [k] bytes of [n], and back. *)
Fixpoint be_bytes (k : nat) (n : Z) : list byte :=
match k with
| O => []
| S k' => byte_of_Z (n / 256 ^ Z.of_nat k') :: be_bytes k' n
end.

Definition be_word (bs : list byte) : Z :=
fold_left (λ acc b, acc * 256 + Z_of_byte b) bs 0.

Module SHA256.

Definition add32 (x y : Z) : Z := (x + y) mod 2 ^ 32.

Definition rotr (n x : Z) : Z :=
  Z.lor (Z.shiftr x n) (Z.shiftl x (32 - n) mod 2 ^ 32).

Definition Ch (x y z : Z) : Z :=
  Z.lxor (Z.land x y) (Z.land (Z.lxor x (2 ^ 32 - 1)) z).

Definition Maj (x y z : Z) : Z :=
  Z.lxor (Z.lxor (Z.land x y) (Z.land x z)) (Z.land y z).

Definition Sigma0 (x : Z) : Z := Z.lxor (Z.lxor (rotr 2 x) (rotr 13 x)) (rotr 22 x).
Definition Sigma1 (x : Z) : Z := Z.lxor (Z.lxor (rotr 6 x) (rotr 11 x)) (rotr 25 x).
Definition sigma0 (x : Z) : Z := Z.lxor (Z.lxor (rotr 7 x) (rotr 18 x)) (Z.shiftr x 3).
Definition sigma1 (x : Z) : Z := Z.lxor (Z.lxor (rotr 17 x) (rotr 19 x)) (Z.shiftr x 10).

(** The constants are the leading 32 fractional bits of the square roots
    (initial hash value) and cube roots (round constants) of the first
    primes. *)
Definition is_prime (p : Z) : bool :=
  forallb (λ d, negb (p mod d =? 0)) (seqZ 2 (p - 2)).

Definition primes : list Z := filter (λ p, is_prime p = true) (seqZ 2 310).

Fixpoint cbrt_bits (bits : nat) (r n : Z) : Z :=
  match bits with
  | O => r
  | S b =>
      let r' := r + 2 ^ Z.of_nat b in
      if r' * r' * r' <=? n then cbrt_bits b r' n else cbrt_bits b r n
  end.

Definition frac_sqrt (p : Z) : Z := Z.sqrt (p * 2 ^ 64) mod 2 ^ 32.
Definition frac_cbrt (p : Z) : Z := cbrt_bits 36 0 (p * 2 ^ 96) mod 2 ^ 32.

Definition K : list Z := Eval vm_compute in map frac_cbrt primes.

Record regs : Type := mk_regs { ra : Z; rb : Z; rc : Z; rd : Z; re : Z; rf : Z; rg : Z; rh : Z }.

Definition H0 : regs :=
  Eval vm_compute in
    match map frac_sqrt (take 8 primes) with
    | [a; b; c; d; e; f; g; h] => mk_regs a b c d e f g h
    | _ => mk_regs 0 0 0 0 0 0 0 0
    end.

(** The sixteen big-endian words of a block. *)
Fixpoint words (n : nat) (bs : list byte) : list Z :=
  match n with
  | O => []
  | S n' => be_word (take 4 bs) :: words n' (drop 4 bs)
  end.

(** The message schedule, produced from a sliding window of sixteen
    words. *)
Definition next_word (win : list Z) : Z :=
  add32 (add32 (add32 (sigma1 (nth 14 win 0)) (nth 9 win 0))
               (sigma0 (nth 1 win 0)))
        (nth 0 win 0).

Fixpoint schedule (n : nat) (win : list Z) : list Z :=
  match n with
  | O => []
  | S n' => nth 0 win 0 :: schedule n' (drop 1 win ++ [next_word win])
  end.

Definition round (r : regs) (kw : Z * Z) : regs :=
  let t1 := add32 (add32 (add32 (add32 (rh r) (Sigma1 (re r)))
                                (Ch (re r) (rf r) (rg r)))
                         kw.1) kw.2 in
  let t2 := add32 (Sigma0 (ra r)) (Maj (ra r) (rb r) (rc r)) in
  mk_regs (add32 t1 t2) (ra r) (rb r) (rc r) (add32 (rd r) t1) (re r) (rf r) (rg r).

Definition compress (h : regs) (block : list byte) : regs :=
  let r := fold_left round (zip K (schedule 64 (words 16 block))) h in
  mk_regs (add32 (ra h) (ra r)) (add32 (rb h) (rb r)) (add32 (rc h) (rc r))
          (add32 (rd h) (rd r)) (add32 (re h) (re r)) (add32 (rf h) (rf r))
          (add32 (rg h) (rg r)) (add32 (rh h) (rh r)).

(** Padding for a message of [len] bytes: the bit 1, zeros up to 56
    modulo 64, and the bit length on eight bytes. *)
Definition padding (len : nat) : list byte :=
  x80 :: replicate (Z.to_nat ((55 - Z.of_nat len) mod 64)) x00
      ++ be_bytes 8 (8 * Z.of_nat len).

Fixpoint split_blocks (k : nat) (bs : list byte) : list (list byte) :=
  match k with
  | O => []
  | S k' => take 64 bs :: split_blocks k' (drop 64 bs)
  end.

(** The complete 64-byte blocks of a byte string. *)
Definition blocks (bs : list byte) : list (list byte) :=
  split_blocks (length bs / 64) bs.

Definition regs_bytes (r : regs) : list byte :=
  be_bytes 4 (ra r) ++ be_bytes 4 (rb r) ++ be_bytes 4 (rc r) ++ be_bytes 4 (rd r)
  ++ be_bytes 4 (re r) ++ be_bytes 4 (rf r) ++ be_bytes 4 (rg r) ++ be_bytes 4 (rh r).

(** The digest of a message, as the standard defines it: pad, cut into
    blocks, run the compression function over them. *)
Definition hash (msg : list byte) : list byte :=
  regs_bytes (fold_left compress (blocks (msg ++ padding (length msg))) H0).

End SHA256.

(** Lowercase hexadecimal. *)
Definition hex_digit (n : N) : ascii :=
default "0"%char (list_ascii_of_string "0123456789abcdef" !! N.to_nat n).

Definition hex_of_byte (b : byte) : list ascii :=
[hex_digit (Byte.to_N b / 16); hex_digit (Byte.to_N b mod 16)].

Definition hex_of_bytes (bs : list byte) : string :=
string_of_list_ascii (flat_map hex_of_byte bs).

Definition bytes_of_string (s : string) : list byte :=
byte_of_ascii <$> list_ascii_of_string s.

(** ** [hashlib.sha256] objects

  The object absorbs bytes as they come: it keeps the chaining value,
  the bytes of the block in progress and the count of bytes seen. *)
Record sha256_obj : Type := mk_sha256 {
sh_regs : SHA256.regs;
sh_buf : list byte;
sh_len : nat
}.

(** [hashlib.sha256()]. *)
Definition sha256_new : sha256_obj :=
{| sh_regs := SHA256.H0; sh_buf := []; sh_len := 0 |}.

Definition sha256_absorb (o : sha256_obj) (b : byte) : sha256_obj :=
let buf := sh_buf o ++ [b] in
if bool_decide (length buf = 64%nat) then
  {| sh_regs := SHA256.compress (sh_regs o) buf; sh_buf := [];
     sh_len := S (sh_len o) |}
else
  {| sh_regs := sh_regs o; sh_buf := buf; sh_len := S (sh_len o) |}.

(** [obj.update(chunk)]. *)
Definition sha256_update (o : sha256_obj) (chunk : list byte) : sha256_obj :=
fold_left sha256_absorb chunk o.

(** [obj.digest()]: absorb the padding on a copy, give the chaining value. *)
Definition sha256_digest (o : sha256_obj) : list byte :=
SHA256.regs_bytes (sh_regs (sha256_update o (SHA256.padding (sh_len o)))).

(** [obj.hexdigest()]. *)
Definition sha256_hexdigest (o : sha256_obj) : string :=
hex_of_bytes (sha256_digest o).


(** ** [json.dumps] *)

(** The values [json.dumps] is given here: [None], [bool], [int], [str],
    lists, and dicts with [str] keys (in insertion order). *)
Inductive json : Type :=
  | JNull
  | JBool (b : bool)
  | JInt (z : Z)
  | JStr (s : string)
  | JArr (items : list json)
  | JObj (members : list (string * json)).

Definition quote_char : ascii := ascii_of_nat 34.
Definition newline : string := String (ascii_of_nat 10) "".

(** [py_encode_basestring_ascii]: printable ASCII stays, the quote, the
    backslash and the usual control characters get their two-character
    escape, everything else its four-digit code. *)
Definition escape_char (c : ascii) : string :=
  let n := N_of_ascii c in
  if (n =? 34)%N then String "\" (String quote_char "")
  else if (n =? 92)%N then "\\"
  else if (n =? 8)%N then "\b"
  else if (n =? 12)%N then "\f"
  else if (n =? 10)%N then "\n"
  else if (n =? 13)%N then "\r"
  else if (n =? 9)%N then "\t"
  else if ((32 <=? n) && (n <=? 126))%N then String c ""
  else "\u00" +:+ String (hex_digit (n / 16)) (String (hex_digit (n mod 16)) "").

Fixpoint escape_chars (s : string) : string :=
  match s with
  | EmptyString => ""
  | String c s' => escape_char c +:+ escape_chars s'
  end.

Definition encode_basestring_ascii (s : string) : string :=
  String quote_char (escape_chars s +:+ String quote_char "").

(** A newline and the indentation of a nesting level. *)
Definition newline_indent (indent level : nat) : string :=
  newline +:+ string_of_list_ascii (replicate (indent * level) " "%char).

(** [json.dumps(v, indent=indent)], at a nesting level. *)
Fixpoint json_encode (indent level : nat) (v : json) : string :=
  match v with
  | JNull => "null"
  | JBool true => "true"
  | JBool false => "false"
  | JInt z => pretty z
  | JStr s => encode_basestring_ascii s
  | JArr [] => "[]"
  | JArr items =>
      "[" +:+ newline_indent indent (S level) +:+
      String.concat ("," +:+ newline_indent indent (S level))
        (map (json_encode indent (S level)) items) +:+
      newline_indent indent level +:+ "]"
  | JObj [] => "{}"
  | JObj members =>
      "{" +:+ newline_indent indent (S level) +:+
      String.concat ("," +:+ newline_indent indent (S level))
        (map (λ kv, encode_basestring_ascii (fst kv) +:+ ": " +:+
                    json_encode indent (S level) (snd kv)) members) +:+
      newline_indent indent level +:+ "}"
  end.

Definition json_dumps (v : json) (indent : nat) : string := json_encode indent 0 v.

(** [d[key]] on a dict. *)
Fixpoint json_get (key : string) (members : list (string * json)) : option json :=
  match members with
  | [] => None
  | (k, v) :: rest => if String.eqb k key then Some v else json_get key rest
  end.

(** ** [datetime.isoformat] *)

Definition digit_char (d : N) : ascii := ascii_of_N (48 + d mod 10).

(** [n] on exactly [w] decimal digits (its low [w] digits). *)
Fixpoint dec_fixed (w : nat) (n : N) : string :=
  match w with
  | O => ""
  | S w' => dec_fixed w' (n / 10) +:+ String (digit_char n) ""
  end.

(** [dt.isoformat()] for an aware UTC [datetime]: the microseconds appear
    only when they are not zero, the offset always. *)
Definition isoformat (dt : datetime) : string :=
  dec_fixed 4 (year dt) +:+ "-" +:+ dec_fixed 2 (month dt) +:+ "-" +:+
  dec_fixed 2 (day dt) +:+ "T" +:+ dec_fixed 2 (hour dt) +:+ ":" +:+
  dec_fixed 2 (minute dt) +:+ ":" +:+ dec_fixed 2 (second dt) +:+
  (if (microsecond dt =? 0)%N then "" else "." +:+ dec_fixed 6 (microsecond dt)) +:+
  "+00:00".

(** The values a [datetime] can hold. *)
Definition valid_datetime (dt : datetime) : Prop :=
  (1 ≤ year dt ≤ 9999 ∧ 1 ≤ month dt ≤ 12 ∧ 1 ≤ day dt ≤ 31 ∧
   hour dt < 24 ∧ minute dt < 60 ∧ second dt < 60 ∧ microsecond dt < 1000000)%N.

(** ** [str()] and [repr()] of the values above *)

Definition apostrophe : ascii := "'"%char.

(** The code points below 256 that [repr] prints as they are. *)
Definition py_printable (n : N) : bool :=
  ((32 <=? n) && (n <? 127) || (161 <=? n) && negb (n =? 173))%N.

(** One character inside the quotes [q]. *)
Definition repr_char (q c : ascii) : string :=
  let n := N_of_ascii c in
  if Ascii.eqb c q || (n =? 92)%N then String "\" (String c "")
  else if (n =? 9)%N then "\t"
  else if (n =? 10)%N then "\n"
  else if (n =? 13)%N then "\r"
  else if py_printable n then String c ""
  else "\x" +:+ String (hex_digit (n / 16)) (String (hex_digit (n mod 16)) "").

Fixpoint repr_chars (q : ascii) (s : string) : string :=
  match s with
  | EmptyString => ""
  | String c s' => repr_char q c +:+ repr_chars q s'
  end.

(** [repr(s)] of a [str]: in apostrophes, unless the text holds an
    apostrophe and no double quote. *)
Definition str_repr (s : string) : string :=
  let cs := list_ascii_of_string s in
  let q := if bool_decide (apostrophe ∈ cs) && negb (bool_decide (quote_char ∈ cs))
           then quote_char else apostrophe in
  String q (repr_chars q s +:+ String q "").

Fixpoint py_repr (v : json) : string :=
  match v with
  | JNull => "None"
  | JBool true => "True"
  | JBool false => "False"
  | JInt z => pretty z
  | JStr s => str_repr s
  | JArr items => "[" +:+ String.concat ", " (map py_repr items) +:+ "]"
  | JObj members =>
      "{" +:+
      String.concat ", "
        (map (λ kv, str_repr (fst kv) +:+ ": " +:+ py_repr (snd kv)) members) +:+
      "}"
  end.

(** [str(v)], which an f-string puts in place of [{v}]. *)
Definition py_str (v : json) : string :=
  match v with
  | JStr s => s
  | _ => py_repr v
  end.

(** The items of a dict. *)
Definition members_of (v : json) : list (string * json) :=
  match v with
  | JObj members => members
  | _ => []
  end.

(** ** Commands over the collaborators

    [Config], [DownloadService] and [ExtractorService] come from the
    [cvec] package.  A command that calls them runs over the world and over
    the state [Env] of that package (its objects, its caches, the network),
    and can fail with an exception [Err] of theirs. *)

Inductive failure (Err : Type) : Type :=
  | Builtin (e : exn)
  | FileExistsError (p : Path)
  | AttributeError
  | Foreign (x : Err).
Arguments Builtin {Err} e.
Arguments FileExistsError {Err} p.
Arguments AttributeError {Err}.
Arguments Foreign {Err} x.

Inductive result (Err A : Type) : Type :=
  | Done (a : A)
  | Failed (e : failure Err).
Arguments Done {Err A} a.
Arguments Failed {Err A} e.

Definition Cmd (Env Err A : Type) : Type := Env → World → result Err A * Env * World.

Global Instance Cmd_ret {Env Err} : MRet (Cmd Env Err) := λ A a s w, (Done a, s, w).
Global Instance Cmd_bind {Env Err} : MBind (Cmd Env Err) := λ A B k m s w,
  match m s w with
  | (Done a, s', w') => k a s' w'
  | (Failed e, s', w') => (Failed e, s', w')
  end.

Definition fail {Env Err A} (e : failure Err) : Cmd Env Err A := λ s w, (Failed e, s, w).

(** The code of this file inside a command. *)
Definition lift {Env Err A} (m : M A) : Cmd Env Err A := λ s w,
  match m w with
  | (Return a, w') => (Done a, s, w')
  | (Raise e, w') => (Failed (Builtin e), s, w')
  end.

(** The directories [mkdir] makes for the parts [p] below a new
    directory. *)
Fixpoint fresh_dirs (p : Path) : node :=
  match p with
  | [] => Dir ∅
  | c :: p' => Dir {[ c := fresh_dirs p' ]}
  end.

(** [Path.mkdir(parents=True, exist_ok=True)] on [p] below [n]: missing
    directories are made, from the first missing one on; a directory that
    is there is left as it is; a regular file on the way, or at the end,
    is an error. *)
Fixpoint tree_mkdir {Err} (full : Path) (n : node) (p : Path) : result Err node :=
  match p with
  | [] =>
      match n with
      | Dir _ => Done n
      | File _ => Failed (FileExistsError full)
      end
  | c :: p' =>
      match n with
      | File _ => Failed (Builtin (NotADirectoryError full))
      | Dir es =>
          match es !! c with
          | Some n' =>
              match tree_mkdir full n' p' with
              | Done n'' => Done (Dir (<[c := n'']> es))
              | Failed e => Failed e
              end
          | None => Done (Dir (<[c := fresh_dirs p']> es))
          end
      end
  end.

Definition path_mkdir {Env Err} (p : Path) : Cmd Env Err () := λ s w,
  match tree_mkdir p (w_root w) p with
  | Done root' =>
      (Done (), s,
       {| w_root := root'; w_clock := w_clock w;
          w_stdout := w_stdout w; w_stderr := w_stderr w |})
  | Failed e => (Failed e, s, w)
  end.

(** [v.get(key, default)]: a dict has the method, the other values do
    not. *)
Definition dict_get {Env Err} (v : json) (key : string) (dflt : json)
    : Cmd Env Err json :=
  match v with
  | JObj members => mret (default dflt (json_get key members))
  | _ => fail AttributeError
  end.

(** What the commands use of the [cvec] package: the constructor and the
    two attributes of [Config] they assign, and the two services with
    their methods. *)
Record Services (Env Err : Type) : Type := {
  config_obj : Type;
  downloader_obj : Type;
  extractor_obj : Type;
  Config : Cmd Env Err config_obj;
  set_default_years : config_obj → Z → Cmd Env Err ();
  set_data_dir : config_obj → Path → Cmd Env Err ();
  DownloadService : config_obj → Cmd Env Err downloader_obj;
  download_cves : downloader_obj → Cmd Env Err json;
  extract_cves : downloader_obj → Cmd Env Err json;
  ExtractorService : config_obj → Cmd Env Err extractor_obj;
  extract_all : extractor_obj → Path → Cmd Env Err json
}.
Arguments config_obj {Env Err} _.
Arguments downloader_obj {Env Err} _.
Arguments extractor_obj {Env Err} _.
Arguments Config {Env Err} _.
Arguments set_default_years {Env Err} _.
Arguments set_data_dir {Env Err} _.
Arguments DownloadService {Env Err} _.
Arguments download_cves {Env Err} _.
Arguments extract_cves {Env Err} _.
Arguments ExtractorService {Env Err} _.
Arguments extract_all {Env Err} _.

(** The world after more lines on the standard output. *)
Definition printed (lines : list string) (w : World) : World :=
  {| w_root := w_root w; w_clock := w_clock w;
     w_stdout := w_stdout w ++ lines; w_stderr := w_stderr w |}.


(** ** [cvec_db.cli] *)

Definition inspect {A : Type} (a : A) : {b : A | a = b} := exist _ a eq_refl.

(** Bytes between the read position and the end of the file. *)
Definition remaining (h : handle) : nat :=
  (length (f_data (h_file h)) - h_pos h)%nat.

Lemma read_advances (data : list byte) (pos n : nat) b chunk :
  take n (drop pos data) = b :: chunk →
  (length data - (pos + length (take n (drop pos data))) < length data - pos)%nat.
Proof.
  intros Hc. assert (Hl := f_equal length Hc). simpl in Hl.
  rewrite Hc. rewrite length_take, length_drop in Hl. simpl. lia.
Qed.

(** [for chunk in iter(lambda: f.read(8192), b''): sha256.update(chunk)]:
    read until the reader gives no bytes. *)
Equations hash_chunks (f : handle) (sha256 : sha256_obj) (w : World)
    : outcome sha256_obj * World by wf (remaining f) lt :=
  hash_chunks f sha256 w with inspect (handle_read f 8192 w) := {
    | exist _ (Raise e, w') _ => (Raise e, w')
    | exist _ (Return ([], _), w') _ => (Return sha256, w')
    | exist _ (Return (b :: chunk, f'), w') Hread =>
        hash_chunks f' (sha256_update sha256 (b :: chunk)) w' }.
Next Obligation.
  unfold remaining.
  match goal with
  | Hread : (if ?c then _ else _) = _ |- _ =>
      destruct c; [done|]; injection Hread as Hc <-
  end.
  simpl. by eapply read_advances.
Qed.

(** The body of the loop over the matched files: hash the file, then build
    its entry. *)
Definition file_entry (pq_file : Path) : M json :=
  f ← open_rb pq_file;
  sha256 ← hash_chunks f sha256_new;
  st ← path_stat pq_file;
  mret (JObj [("name", JStr (path_name pq_file));
              ("size", JInt (st_size st));
              ("sha256", JStr (sha256_hexdigest sha256))]).

(** [for pq_file in ...: parquet_files.append({...})]. *)
Fixpoint hash_files (files : list Path) (parquet_files : list json)
    : M (list json) :=
  match files with
  | [] => mret parquet_files
  | pq_file :: rest =>
      entry ← file_entry pq_file;
      hash_files rest (parquet_files ++ [entry])
  end.

Section cli.

(** [cvec_db.MANIFEST_SCHEMA_VERSION]: defined in the package's
    [__init__], an integer. *)
Variable MANIFEST_SCHEMA_VERSION : Z.

(** [len(pl.read_parquet(...))]: the number of rows polars finds in the
    bytes of a parquet file, if they are one. *)
Variable parquet_height : list byte → option Z.

(** The dict [create_manifest] assembles. *)
Definition manifest_dict (generated_at : string) (stats : list (string * json))
    (parquet_files : list json) : json :=
  JObj [("schema_version", JInt MANIFEST_SCHEMA_VERSION);
        ("generated_at", JStr generated_at);
        ("cvec_db_version", JStr "0.1.0");
        ("stats", JObj stats);
        ("files", JArr parquet_files)].

Definition create_manifest (output_dir : Path) (stats : list (string * json))
    : M Path :=
  files ← path_glob output_dir "*.parquet";
  parquet_files ← hash_files (sorted files) [];
  now ← datetime_now_utc;
  let manifest := manifest_dict (isoformat now) stats parquet_files in
  let manifest_path := path_join output_dir "manifest.json" in
  write_text manifest_path (json_dumps manifest 2);;
  mret manifest_path.

(** [pl.read_parquet(path)] followed by [len]: the file is read whole. *)
Definition read_parquet_len (p : Path) : M Z :=
  f ← open_rb p;
  '(data, _) ← handle_read f (length (f_data (h_file f)));
  match parquet_height data with
  | Some n => mret n
  | None => raise (ParquetError p)
  end.

(** The [manifest] command, over the manifest builder it calls. *)
Definition manifest_with (build : Path → list (string * json) → M Path)
    (data_dir : option Path) : M unit :=
  let data_dir := default ["data"] data_dir in
  found ← path_exists data_dir;
  if negb (found : bool) then
    echo ("Error: Directory " +:+ path_str data_dir +:+ " does not exist") true;;
    raise (Exit 1)
  else
    let cves_parquet := path_join data_dir "cves.parquet" in
    has_cves ← path_exists cves_parquet;
    stats ← (if (has_cves : bool) then
               n ← read_parquet_len cves_parquet;
               mret [("cves", JInt n)]
             else mret []);
    manifest_path ← build data_dir stats;
    echo ("Manifest created: " +:+ path_str manifest_path) false.

Definition manifest : option Path → M unit := manifest_with create_manifest.

(** The status a command's process ends with: zero when the command
    returns, the code of [typer.Exit], one for an uncaught exception. *)
Definition exit_status {A : Type} (o : outcome A) : Z :=
  match o with
  | Return _ => 0
  | Raise (Exit code) => code
  | Raise _ => 1
  end.

(** The text of a manifest: an object over several lines, its members
    indented by two spaces, in this order. *)
Definition manifest_layout (generated_at stats_text files_text : string) : string :=
  "{" +:+ newline +:+
  String.concat ("," +:+ newline)
    [ "  " +:+ encode_basestring_ascii "schema_version" +:+ ": " +:+
        pretty MANIFEST_SCHEMA_VERSION;
      "  " +:+ encode_basestring_ascii "generated_at" +:+ ": " +:+
        encode_basestring_ascii generated_at;
      "  " +:+ encode_basestring_ascii "cvec_db_version" +:+ ": " +:+
        encode_basestring_ascii "0.1.0";
      "  " +:+ encode_basestring_ascii "stats" +:+ ": " +:+ stats_text;
      "  " +:+ encode_basestring_ascii "files" +:+ ": " +:+ files_text ] +:+
  newline +:+ "}".

(** ** Vocabulary of the specification *)

(** What a path shows: a regular file, a directory, or nothing. *)
Inductive view : Type :=
  | VFile (f : file)
  | VDir
  | VAbsent.

Definition view_at (root : node) (p : Path) : view :=
  match walk root p with
  | Found (File f) => VFile f
  | Found (Dir _) => VDir
  | ENOENT | ENOTDIR => VAbsent
  end.

(** The bytes of the regular file at a path. *)
Definition file_data (root : node) (p : Path) : option (list byte) :=
  match walk root p with
  | Found (File f) => Some (f_data f)
  | _ => None
  end.

Definition ends_with (suffix s : string) : Prop := ∃ pre, s = pre +:+ suffix.

(** The data files of a directory: the regular files directly in it whose
    name ends in [.parquet]. *)
Definition is_data_file (root : node) (dir : Path) (name : string) (f : file)
    : Prop :=
  walk root (path_join dir name) = Found (File f) ∧ ends_with ".parquet" name.

(** A file that can be read to its end. *)
Definition can_read (f : file) : bool :=
  f_readable f && negb (hits_bad f 0 (length (f_data f))).

(** The error that reading the file at a path to its end raises, if any. *)
Definition read_error (root : node) (p : Path) : option exn :=
  match walk root p with
  | Found (File f) =>
      if negb (f_readable f) then Some (PermissionError p)
      else if hits_bad f 0 (length (f_data f)) then Some (OSError_EIO p)
      else None
  | Found (Dir _) => Some (IsADirectoryError p)
  | ENOENT => Some (FileNotFoundError p)
  | ENOTDIR => Some (NotADirectoryError p)
  end.

(** The entry the manifest is to hold for a file: its name, its length and
    the digest of its bytes. *)
Definition entry_of (name : string) (data : list byte) : json :=
  JObj [("name", JStr name);
        ("size", JInt (Z.of_nat (length data)));
        ("sha256", JStr (hex_of_bytes (SHA256.hash data)))].

Definition entry_name (e : json) : option string :=
  match e with
  | JObj members => if json_get "name" members is Some (JStr s) then Some s else None
  | _ => None
  end.

(** The manifest file of a directory holds the serialisation of [m]. *)
Definition manifest_written (root : node) (dir : Path) (m : json) : Prop :=
  file_data root (path_join dir "manifest.json") = Some (encode_utf8 (json_dumps m 2)).

(** [n] splits a byte string into the chunks a reader returns for reads of
    [n] bytes. *)
Fixpoint chunks_of (k n : nat) (data : list byte) : list (list byte) :=
  match k with
  | O => []
  | S k' =>
      match data with
      | [] => []
      | _ => take n data :: chunks_of k' n (drop n data)
      end
  end.

Definition is_lower_hex (c : ascii) : Prop :=
  c ∈ list_ascii_of_string "0123456789abcdef".

(** The clock of the world set to [t]. *)
Definition at_time (t : datetime) (w : World) : World :=
  {| w_root := w_root w; w_clock := t;
     w_stdout := w_stdout w; w_stderr := w_stderr w |}.

(** The entry for the file a path shows. *)
Definition entry_at (root : node) (p : Path) : json :=
  entry_of (path_name p) (default [] (file_data root p)).

(** The first error met when reading the files of a list in turn. *)
Fixpoint first_error (root : node) (ps : list Path) : option exn :=
  match ps with
  | [] => None
  | p :: ps' =>
      match read_error root p with
      | Some e => Some e
      | None => first_error root ps'
      end
  end.

(** The entry for a name of a directory. *)
Definition dir_entry (es : gmap string node) (name : string) : json :=
  entry_of name (if es !! name is Some (File f) then f_data f else []).

(** The sorted listing [create_manifest] iterates over. *)
Definition listing (root : node) (dir : Path) : list Path :=
  sorted
    match walk root dir with
    | Found (Dir es) =>
        path_join dir <$>
          filter (λ name, fnmatchcase name "*.parquet" = true) (elements (dom es))
    | _ => []
    end.

(** The world with another file tree. *)
Definition with_root (root : node) (w : World) : World :=
  {| w_root := root; w_clock := w_clock w;
     w_stdout := w_stdout w; w_stderr := w_stderr w |}.

(** A name the directory lets [open(..., 'w')] write to: free, or a
    writable regular file. *)
Definition can_write (es : gmap string node) (name : string) : Prop :=
  es !! name = None ∨ ∃ f, es !! name = Some (File f) ∧ f_writable f = true.

(** A text of ASCII characters only. *)
Fixpoint is_ascii (s : string) : bool :=
  match s with
  | EmptyString => true
  | String c s' => (N_of_ascii c <? 128)%N && is_ascii s'
  end.


(** ** Sample worlds *)

Definition sample_clock : datetime :=
  {| year := 2026; month := 11; day := 3;
     hour := 7; minute := 5; second := 9; microsecond := 0 |}.

Definition later_clock : datetime :=
  {| year := 2026; month := 11; day := 3;
     hour := 7; minute := 6; second := 0; microsecond := 250000 |}.

Definition file_a : file := new_file (bytes_of_string "AAAAAAAA").
Definition file_b : file := new_file [].

(** A file the user may not read. *)
Definition locked_file : file :=
  {| f_data := bytes_of_string "secret"; f_readable := false;
     f_writable := true; f_bad := None |}.

(** A data directory after an earlier build: two data files, a text file,
    a subdirectory with a data file of its own, and an old manifest. *)
Definition sample_dir : gmap string node :=
  {[ "a.parquet" := File file_a;
     "b.parquet" := File file_b;
     "notes.txt" := File (new_file (bytes_of_string "hello"));
     "sub" := Dir {[ "c.parquet" := File (new_file (bytes_of_string "zz")) ]};
     "manifest.json" := File (new_file (bytes_of_string "old")) ]}.

Definition sample_world : World :=
  {| w_root := Dir {[ "data" := Dir sample_dir ]};
     w_clock := sample_clock; w_stdout := []; w_stderr := [] |}.

(** The same directory with one data file locked. *)
Definition locked_dir : gmap string node :=
  <["b.parquet" := File locked_file]> sample_dir.

Definition locked_world : World :=
  {| w_root := Dir {[ "data" := Dir locked_dir ]};
     w_clock := sample_clock; w_stdout := []; w_stderr := [] |}.

(** A directory without data files. *)
Definition bare_dir : gmap string node :=
  {[ "notes.txt" := File (new_file (bytes_of_string "hello")) ]}.

Definition bare_world : World :=
  {| w_root := Dir {[ "data" := Dir bare_dir ]};
     w_clock := sample_clock; w_stdout := []; w_stderr := [] |}.

(** A directory without data files where [manifest.json] is a
    directory. *)
Definition blocked_dir : gmap string node :=
  {[ "manifest.json" := Dir ∅ ]}.

Definition blocked_world : World :=
  {| w_root := Dir {[ "data" := Dir blocked_dir ]};
     w_clock := sample_clock; w_stdout := []; w_stderr := [] |}.

Definition sample_stats : list (string * json) := [("cves", JInt 42)].

(** A directory holding exactly [a.parquet] and [b.parquet]. *)
Definition pair_world : World :=
  {| w_root := Dir {[ "out" := Dir {[ "a.parquet" := File file_a;
                                       "b.parquet" := File file_b ]} ]};
     w_clock := sample_clock; w_stdout := []; w_stderr := [] |}.

(** A polars that finds no parquet data anywhere. *)
Definition no_parquet (data : list byte) : option Z := None.


(** ** The commands that call the [cvec] package *)

Context {Env Err : Type}.
Variable cvec : Services Env Err.

(** The [build] command. *)
Definition build (output_dir : option Path) (years : Z) (skip_download : bool)
    : Cmd Env Err () :=
  let output_dir := default ["data"] output_dir in
  path_mkdir output_dir;;
  config ← Config cvec;
  set_default_years cvec config years;;
  set_data_dir cvec config output_dir;;
  (if negb skip_download then
     lift (echo ("Downloading CVE data (last " +:+ pretty years +:+ " years)...")
             false);;
     downloader ← DownloadService cvec config;
     download_cves cvec downloader;;
     extract_cves cvec downloader;;
     lift (echo "Download complete." false)
   else mret ());;
  lift (echo "Extracting CVE data to parquet..." false);;
  extractor ← ExtractorService cvec config;
  result ← extract_all cvec extractor output_dir;
  stats ← dict_get result "stats" (JObj []);
  cves ← dict_get stats "cves" (JInt 0);
  lift (echo ("Extracted " +:+ py_str cves +:+ " CVEs") false);;
  lift (echo "Creating manifest..." false);;
  (* [stats.get] has returned: [stats] is a dict *)
  manifest_path ← lift (create_manifest output_dir (members_of stats));
  lift (echo ("Manifest created: " +:+ path_str manifest_path) false);;
  lift (echo "Build complete!" false).

(** The [download-json] command. *)
Definition download_json (years : Z) : Cmd Env Err () :=
  config ← Config cvec;
  set_default_years cvec config years;;
  lift (echo ("Downloading CVE data (last " +:+ pretty years +:+ " years)...")
          false);;
  downloader ← DownloadService cvec config;
  download_cves cvec downloader;;
  count ← extract_cves cvec downloader;
  lift (echo ("Downloaded and extracted " +:+ py_str count +:+ " CVE JSON files")
          false).

(** The [extract-parquet] command. *)
Definition extract_parquet (output_dir : option Path) (years : Z)
    : Cmd Env Err () :=
  let output_dir := default ["data"] output_dir in
  path_mkdir output_dir;;
  config ← Config cvec;
  set_default_years cvec config years;;
  set_data_dir cvec config output_dir;;
  lift (echo "Extracting CVE data to parquet..." false);;
  extractor ← ExtractorService cvec config;
  result ← extract_all cvec extractor output_dir;
  stats ← dict_get result "stats" (JObj []);
  cves ← dict_get stats "cves" (JInt 0);
  lift (echo ("Extracted " +:+ py_str cves +:+ " CVEs") false);;
  lift (echo "Creating manifest..." false);;
  manifest_path ← lift (create_manifest output_dir (members_of stats));
  lift (echo ("Manifest created: " +:+ path_str manifest_path) false).

(** The same package with another download service. *)
Definition with_downloader (D : Type)
    (service : config_obj cvec → Cmd Env Err D)
    (download extract : D → Cmd Env Err json) : Services Env Err :=
  {| config_obj := config_obj cvec;
     downloader_obj := D;
     extractor_obj := extractor_obj cvec;
     Config := Config cvec;
     set_default_years := set_default_years cvec;
     set_data_dir := set_data_dir cvec;
     DownloadService := service;
     download_cves := download;
     extract_cves := extract;
     ExtractorService := ExtractorService cvec;
     extract_all := extract_all cvec |}.

(** A directory with the file the [manifest] command counts rows in. *)
Definition cve_dir : gmap string node :=
  {[ "cves.parquet" := File (new_file (bytes_of_string "ROWS"));
     "notes.txt" := File (new_file (bytes_of_string "hello")) ]}.

Definition cve_world : World :=
  {| w_root := Dir {[ "data" := Dir cve_dir ]};
     w_clock := sample_clock; w_stdout := []; w_stderr := [] |}.

(** A polars for which every byte is a row. *)
Definition byte_rows (data : list byte) : option Z := Some (Z.of_nat (length data)).

(** A [cvec] package for the examples.  Its state is the log of the calls
    made; its extractor writes one data file of four bytes and reports
    three records; its downloader fails when asked for no year at all. *)
Definition put_file (p : Path) (data : list byte) (w : World) : World :=
  match tree_write p (w_root w) p data with
  | Return root' =>
      {| w_root := root'; w_clock := w_clock w;
         w_stdout := w_stdout w; w_stderr := w_stderr w |}
  | Raise _ => w
  end.

Definition demo_cvec : Services (list string) string :=
  {| config_obj := unit;
     downloader_obj := unit;
     extractor_obj := unit;
     Config := λ s w, (Done (), s ++ ["Config"], w);
     set_default_years := λ _ years s w,
       (Done (), s ++ ["default_years=" +:+ pretty years], w);
     set_data_dir := λ _ dir s w,
       (Done (), s ++ ["data_dir=" +:+ path_str dir], w);
     DownloadService := λ _ s w, (Done (), s ++ ["DownloadService"], w);
     download_cves := λ _ s w,
       if bool_decide ("default_years=0" ∈ s)
       then (Failed (Foreign "nothing to download"), s, w)
       else (Done JNull, s ++ ["download_cves"], w);
     extract_cves := λ _ s w, (Done (JInt 7), s ++ ["extract_cves"], w);
     ExtractorService := λ _ s w, (Done (), s ++ ["ExtractorService"], w);
     extract_all := λ _ dir s w,
       (Done (JObj [("stats", JObj [("cves", JInt 3)])]),
        s ++ ["extract_all"],
        put_file (path_join dir "cves.parquet") (bytes_of_string "CVES") w) |}.

(** An empty working directory. *)
Definition empty_world : World :=
  {| w_root := Dir ∅; w_clock := sample_clock; w_stdout := []; w_stderr := [] |}.

(** A directory without data files that holds a subdirectory named like
    one. *)
Definition nested_dir : gmap string node :=
  {[ "old.parquet" := Dir {[ "part-0" := File (new_file (bytes_of_string "zz")) ]} ]}.

Definition nested_world : World :=
  {| w_root := Dir {[ "data" := Dir nested_dir ]};
     w_clock := sample_clock; w_stdout := []; w_stderr := [] |}.

(** * Part II: properties of the runtime model *)

(** ** Orders *)

Section lexicographic.
Context {A : Type} (cmp : A → A → comparison).
Hypothesis cmp_refl : ∀ x, cmp x x = Eq.
Hypothesis cmp_eq : ∀ x y, cmp x y = Eq → x = y.
Hypothesis cmp_antisym : ∀ x y, cmp x y = CompOpp (cmp y x).
Hypothesis cmp_trans : ∀ x y z, cmp x y = Lt → cmp y z = Lt → cmp x z = Lt.

Lemma lex_compare_refl l : lex_compare cmp l l = Eq.
Proof. induction l as [|x l IH]; simpl; [done|]. by rewrite cmp_refl. Qed.

Lemma lex_compare_eq l1 l2 : lex_compare cmp l1 l2 = Eq → l1 = l2.
Proof.
  revert l2. induction l1 as [|x l1 IH]; intros [|y l2]; simpl; try done.
  destruct (cmp x y) eqn:E; try done.
  intros H. apply cmp_eq in E as ->. f_equal. by apply IH.
Qed.

Lemma lex_compare_antisym l1 l2 :
  lex_compare cmp l1 l2 = CompOpp (lex_compare cmp l2 l1).
Proof.
  revert l2. induction l1 as [|x l1 IH]; intros [|y l2]; simpl; try done.
  rewrite (cmp_antisym x y). destruct (cmp y x); simpl; auto.
Qed.

Lemma lex_compare_trans l1 l2 l3 :
  lex_compare cmp l1 l2 = Lt → lex_compare cmp l2 l3 = Lt → lex_compare cmp l1 l3 = Lt.
Proof.
  revert l2 l3.
  induction l1 as [|x l1 IH]; intros [|y l2] [|z l3]; simpl; try done.
  destruct (cmp x y) eqn:Exy; try done.
  - apply cmp_eq in Exy as ->. destruct (cmp y z); try done. apply IH.
  - intros _. destruct (cmp y z) eqn:Eyz; try done.
    + apply cmp_eq in Eyz as ->. by rewrite Exy.
    + by rewrite (cmp_trans _ _ _ Exy Eyz).
Qed.

(** Sequences with a common prefix compare as their remainders do. *)
Lemma lex_compare_app p l1 l2 :
  lex_compare cmp (p ++ l1) (p ++ l2) = lex_compare cmp l1 l2.
Proof. induction p as [|x p IH]; simpl; [done|]. by rewrite cmp_refl. Qed.
End lexicographic.

Lemma ascii_compare_refl c : Ascii.compare c c = Eq.
Proof. unfold Ascii.compare. apply N.compare_refl. Qed.

Lemma ascii_compare_trans a b c :
  Ascii.compare a b = Lt → Ascii.compare b c = Lt → Ascii.compare a c = Lt.
Proof.
  unfold Ascii.compare. rewrite !N.compare_lt_iff. apply N.lt_trans.
Qed.

Lemma string_compare_lex s1 s2 :
  String.compare s1 s2 =
  lex_compare Ascii.compare (list_ascii_of_string s1) (list_ascii_of_string s2).
Proof.
  revert s2. induction s1 as [|c s1 IH]; intros [|d s2]; simpl; try done.
  by rewrite IH.
Qed.

Lemma string_compare_refl s : String.compare s s = Eq.
Proof. rewrite string_compare_lex. apply lex_compare_refl, ascii_compare_refl. Qed.

Lemma string_compare_trans s1 s2 s3 :
  String.compare s1 s2 = Lt → String.compare s2 s3 = Lt →
  String.compare s1 s3 = Lt.
Proof.
  rewrite !string_compare_lex. apply lex_compare_trans.
  - intros x y. apply Ascii.compare_eq_iff.
  - apply ascii_compare_trans.
Qed.

Lemma path_compare_refl p : path_compare p p = Eq.
Proof. apply lex_compare_refl, string_compare_refl. Qed.

Lemma path_compare_eq p q : path_compare p q = Eq → p = q.
Proof. apply lex_compare_eq, String.compare_eq_iff. Qed.

Lemma path_compare_antisym p q : path_compare p q = CompOpp (path_compare q p).
Proof. apply lex_compare_antisym, String.compare_antisym. Qed.

Lemma path_compare_trans p q r :
  path_compare p q = Lt → path_compare q r = Lt → path_compare p r = Lt.
Proof.
  apply lex_compare_trans.
  - apply String.compare_eq_iff.
  - apply string_compare_trans.
Qed.

Global Instance path_le_total : Total path_le.
Proof.
  intros p q. unfold path_le. rewrite (path_compare_antisym q p).
  destruct (path_compare p q); simpl; auto.
Qed.

Global Instance path_le_trans : Transitive path_le.
Proof.
  intros p q r. unfold path_le.
  destruct (path_compare p q) eqn:E1; [|  |done].
  - by apply path_compare_eq in E1 as ->.
  - destruct (path_compare q r) eqn:E2; [| |done].
    + by apply path_compare_eq in E2 as <-; rewrite E1.
    + by rewrite (path_compare_trans _ _ _ E1 E2).
Qed.

Global Instance path_le_antisym : AntiSymm (=) path_le.
Proof.
  intros p q. unfold path_le. rewrite (path_compare_antisym q p).
  destruct (path_compare p q) eqn:E; simpl; try done.
  intros _ _. by apply path_compare_eq.
Qed.

Lemma path_le_join d a b :
  path_le (path_join d a) (path_join d b) ↔ a = b ∨ str_lt a b.
Proof.
  unfold path_le, path_compare, path_join, str_lt.
  rewrite lex_compare_app by apply string_compare_refl. simpl.
  destruct (String.compare a b) eqn:E; split; try done; auto.
  - intros _. left. by apply String.compare_eq_iff.
  - intros [->|]; [|done]. by rewrite string_compare_refl in E.
Qed.

Lemma path_name_join d n : path_name (path_join d n) = n.
Proof. apply last_last. Qed.

Lemma path_join_inj d a b : path_join d a = path_join d b → a = b.
Proof. unfold path_join. intros H. by apply app_inv_head in H as [=]. Qed.


(** ** SHA-256: constants and test vectors *)

Example K_first_last :
  SHA256.K !! 0%nat = Some 0x428a2f98 ∧ SHA256.K !! 63%nat = Some 0xc67178f2 ∧
  length SHA256.K = 64%nat.
Proof. by vm_compute. Qed.

Example H0_value :
  SHA256.H0 = SHA256.mk_regs 0x6a09e667 0xbb67ae85 0x3c6ef372 0xa54ff53a
                             0x510e527f 0x9b05688c 0x1f83d9ab 0x5be0cd19.
Proof. reflexivity. Qed.

Example sha256_abc :
  hex_of_bytes (SHA256.hash (bytes_of_string "abc")) =
  "ba7816bf8f01cfea414140de5dae2223b00361a396177a9cb410ff61f20015ad".
Proof. by vm_compute. Qed.

Example sha256_two_blocks :
  hex_of_bytes (SHA256.hash (bytes_of_string
    "abcdbcdecdefdefgefghfghighijhijkijkljklmklmnlmnomnopnopq")) =
  "248d6a61d20638b8e5c026930c3e6039a33ce45964ff2167f6ecedd419db06c1".
Proof. by vm_compute. Qed.

Example sha256_streamed_abc :
  sha256_hexdigest (sha256_update (sha256_update sha256_new (bytes_of_string "a"))
                                  (bytes_of_string "bc")) =
  "ba7816bf8f01cfea414140de5dae2223b00361a396177a9cb410ff61f20015ad".
Proof. by vm_compute. Qed.

(** ** Patterns *)

Lemma fnmatch_literal pat s :
  forallb literal_char (list_ascii_of_string pat) = true →
  fnmatch_from pat s = true ↔ s = pat.
Proof.
  revert s. induction pat as [|c pat IH]; intros s Hlit.
  - destruct s; simpl; split; congruence.
  - simpl in Hlit. apply andb_true_iff in Hlit as [Hc Hlit].
    apply andb_true_iff in Hc as [H1 H2].
    apply negb_true_iff in H1, H2. simpl. rewrite H1, H2.
    destruct s as [|d s]; [split; congruence|].
    rewrite andb_true_iff, Ascii.eqb_eq, (IH _ Hlit).
    split; [intros [-> ->]; done | intros [= -> ->]; done].
Qed.

Lemma fnmatch_star pat s :
  fnmatch_from (String "*" pat) s = true ↔
  ∃ pre suf, s = pre +:+ suf ∧ fnmatch_from pat suf = true.
Proof.
  change (fnmatch_from (String "*" pat)) with
    (fix star (name : string) : bool :=
       fnmatch_from pat name ||
       match name with
       | EmptyString => false
       | String _ name' => star name'
       end).
  induction s as [|c s IH].
  - rewrite orb_false_r. split.
    + intros H. by exists "", "".
    + intros ([|? ?] & suf & Hs & Hm); simpl in Hs; [by subst|done].
  - rewrite orb_true_iff, IH. split.
    + intros [H|(pre & suf & -> & H)].
      * by exists "", (String c s).
      * by exists (String c pre), suf.
    + intros ([|d pre] & suf & Hs & Hm); simpl in Hs.
      * left. by subst.
      * right. injection Hs as -> ->. by exists pre, suf.
Qed.

(** [*.parquet] selects the names that end in [.parquet]. *)
Lemma fnmatch_parquet name :
  fnmatchcase name "*.parquet" = true ↔ ends_with ".parquet" name.
Proof.
  unfold fnmatchcase, ends_with. rewrite fnmatch_star. split.
  - intros (pre & suf & -> & H). exists pre.
    by apply fnmatch_literal in H as ->.
  - intros (pre & ->). exists pre, ".parquet". split; [done|].
    by vm_compute.
Qed.

Lemma manifest_json_not_parquet : ¬ ends_with ".parquet" "manifest.json".
Proof. rewrite <- fnmatch_parquet. by vm_compute. Qed.

(** ** The file tree *)

Lemma walk_app root p q :
  walk root (p ++ q) =
  match walk root p with
  | Found n => walk n q
  | ENOENT => ENOENT
  | ENOTDIR => ENOTDIR
  end.
Proof.
  revert root. induction p as [|c p IH]; intros root; simpl; [done|].
  destruct root as [f|es]; [done|]. by destruct (es !! c).
Qed.

Lemma walk_join root dir es name :
  walk root dir = Found (Dir es) →
  walk root (path_join dir name) =
  match es !! name with
  | Some n => Found n
  | None => ENOENT
  end.
Proof.
  intros H. unfold path_join. rewrite walk_app, H. simpl.
  by destruct (es !! name).
Qed.

Lemma walk_join_inv root dir name n :
  walk root (path_join dir name) = Found n →
  ∃ es, walk root dir = Found (Dir es) ∧ es !! name = Some n.
Proof.
  unfold path_join. rewrite walk_app.
  destruct (walk root dir) as [[f|es]| |]; simpl; try done.
  destruct (es !! name) as [n'|] eqn:E; [|done]. intros [= ->]. eauto.
Qed.

Lemma walk_below_file f q : q ≠ [] → walk (File f) q = ENOTDIR.
Proof. by destruct q. Qed.

(** A successful write: the directory held no such name or a writable
    file; afterwards it holds the written file, and every other path shows
    what it showed before. *)
Lemma tree_write_Return full root dir name data root' :
  tree_write full root (path_join dir name) data = Return root' →
  ∃ es f',
    walk root dir = Found (Dir es) ∧
    (es !! name = None ∧ f' = new_file data ∨
     ∃ f, es !! name = Some (File f) ∧ f_writable f = true ∧
          f' = overwrite f data) ∧
    walk root' dir = Found (Dir (<[name := File f']> es)) ∧
    (∀ q, q ≠ path_join dir name → view_at root' q = view_at root q).
Proof.
  unfold path_join. revert root root'.
  induction dir as [|c dir IH]; intros root root'; simpl.
  - destruct root as [f|es]; [done|].
    destruct (es !! name) as [[f|es']|] eqn:E; simpl; try done.
    + destruct (f_writable f) eqn:Hw; [|done]. intros [= <-].
      exists es, (overwrite f data). repeat split; eauto.
      intros [|d q] Hq; [done|]. unfold view_at. simpl.
      destruct (decide (d = name)) as [->|Hne].
      * rewrite lookup_insert_eq, E.
        assert (q ≠ []) by congruence. by rewrite !walk_below_file.
      * by rewrite lookup_insert_ne.
    + intros [= <-]. exists es, (new_file data). repeat split; eauto.
      intros [|d q] Hq; [done|]. unfold view_at. simpl.
      destruct (decide (d = name)) as [->|Hne].
      * rewrite lookup_insert_eq, E.
        assert (q ≠ []) by congruence. by rewrite walk_below_file.
      * by rewrite lookup_insert_ne.
  - destruct root as [f|es0]; [done|].
    destruct (es0 !! c) as [n'|] eqn:E.
    + destruct (tree_write full n' (dir ++ [name]) data) as [n''|] eqn:Hw;
        [|done].
      intros [= <-]. apply IH in Hw as (es & f' & Hdir & Hname & Hdir' & Hframe).
      exists es, f'. simpl. rewrite lookup_insert_eq. repeat split; auto.
      intros [|d q] Hq; [done|]. unfold view_at. simpl.
      destruct (decide (d = c)) as [->|Hne].
      * rewrite lookup_insert_eq, E. apply Hframe. congruence.
      * by rewrite lookup_insert_ne.
    + by destruct dir.
Qed.

(** What [open(..., 'w')] does, by what the directory shows. *)
Lemma tree_write_cases full root dir name data :
  match walk root dir with
  | ENOENT =>
      tree_write full root (path_join dir name) data = Raise (FileNotFoundError full)
  | ENOTDIR | Found (File _) =>
      tree_write full root (path_join dir name) data = Raise (NotADirectoryError full)
  | Found (Dir es) =>
      match es !! name with
      | Some (Dir _) =>
          tree_write full root (path_join dir name) data
          = Raise (IsADirectoryError full)
      | Some (File f) =>
          if f_writable f then
            ∃ root', tree_write full root (path_join dir name) data = Return root'
          else
            tree_write full root (path_join dir name) data
            = Raise (PermissionError full)
      | None =>
          ∃ root', tree_write full root (path_join dir name) data = Return root'
      end
  end.
Proof.
  unfold path_join. revert root.
  induction dir as [|c dir IH]; intros root; simpl.
  - destruct root as [f|es]; [done|].
    destruct (es !! name) as [[f|es']|]; simpl; eauto.
    destruct (f_writable f); eauto.
  - destruct root as [f|es0]; [done|].
    destruct (es0 !! c) as [n'|] eqn:E; [|by destruct dir].
    specialize (IH n').
    destruct (walk n' dir) as [[f|es]| |]; try by rewrite IH.
    destruct (es !! name) as [[f|es']|]; try by rewrite IH.
    + destruct (f_writable f); [|by rewrite IH].
      destruct IH as [root' ->]. eauto.
    + destruct IH as [root' ->]. eauto.
Qed.

(** Writing to a file the bytes it holds changes nothing. *)
Lemma tree_write_same full root p f data :
  walk root p = Found (File f) → f_writable f = true →
  overwrite f data = f →
  tree_write full root p data = Return root.
Proof.
  intros Hwalk Hw Hsame. revert root Hwalk.
  induction p as [|c p IH]; intros root; simpl.
  - intros [= ->]. by rewrite Hw, Hsame.
  - destruct root as [f0|es]; [done|].
    destruct (es !! c) as [n'|] eqn:E; [|done].
    intros Hwalk. rewrite (IH _ Hwalk). by rewrite insert_id.
Qed.

(** ** [hashlib.sha256]: absorbing bytes chunk by chunk gives the digest
       of the whole *)

Lemma sha256_update_app o a b :
  sha256_update o (a ++ b) = sha256_update (sha256_update o a) b.
Proof. apply fold_left_app. Qed.

(** Bytes that do not fill the block in progress are only stored. *)
Lemma sha256_update_partial l o :
  (length (sh_buf o) + length l < 64)%nat →
  sha256_update o l =
  {| sh_regs := sh_regs o; sh_buf := sh_buf o ++ l;
     sh_len := (sh_len o + length l)%nat |}.
Proof.
  revert o. induction l as [|b l IH]; intros o Hlen; simpl in *.
  - destruct o. simpl. rewrite app_nil_r. f_equal. lia.
  - rewrite IH; unfold sha256_absorb; rewrite length_app; simpl;
      case_bool_decide; try lia; simpl.
    + rewrite <- app_assoc. simpl. f_equal. lia.
    + rewrite length_app. simpl. lia.
Qed.

(** A whole block on an empty buffer is compressed at once. *)
Lemma sha256_update_block blk o :
  sh_buf o = [] → length blk = 64%nat →
  sha256_update o blk =
  {| sh_regs := SHA256.compress (sh_regs o) blk; sh_buf := [];
     sh_len := (sh_len o + 64)%nat |}.
Proof.
  intros Hbuf Hlen.
  destruct (decide (blk = [])) as [->|Hne]; [done|].
  destruct (exists_last Hne) as (l & b & ->).
  rewrite length_app in Hlen. simpl in Hlen.
  rewrite sha256_update_app.
  rewrite (sha256_update_partial l o); [|rewrite Hbuf; simpl; lia].
  simpl. unfold sha256_absorb. simpl. rewrite Hbuf. simpl.
  rewrite bool_decide_true by (rewrite length_app; simpl; lia).
  f_equal. lia.
Qed.

Lemma sha256_update_blocks k l o :
  sh_buf o = [] → (64 * k ≤ length l < 64 * S k)%nat →
  sha256_update o l =
  {| sh_regs := fold_left SHA256.compress (SHA256.split_blocks k l) (sh_regs o);
     sh_buf := drop (64 * k) l;
     sh_len := (sh_len o + length l)%nat |}.
Proof.
  revert l o. induction k as [|k IH]; intros l o Hbuf Hlen.
  - rewrite sha256_update_partial by (rewrite Hbuf; simpl; lia).
    by rewrite Hbuf.
  - rewrite <- (take_drop 64 l) at 1.
    rewrite sha256_update_app.
    rewrite (sha256_update_block (take 64 l)) by (rewrite ?length_take; auto; lia).
    rewrite IH by (simpl; rewrite ?length_drop; auto; lia).
    simpl. rewrite drop_drop, length_drop. f_equal; [f_equal; lia | lia].
Qed.

Lemma sha256_update_regs l o :
  sh_buf o = [] →
  sh_regs (sha256_update o l) =
  fold_left SHA256.compress (SHA256.blocks l) (sh_regs o).
Proof.
  intros Hbuf. unfold SHA256.blocks.
  rewrite (sha256_update_blocks (length l / 64)); [done|done|].
  pose proof (Nat.div_mod_eq (length l) 64).
  pose proof (Nat.mod_upper_bound (length l) 64). lia.
Qed.

Lemma sha256_update_len l o : sh_len (sha256_update o l) = (sh_len o + length l)%nat.
Proof.
  revert o. induction l as [|b l IH]; intros o; simpl; [lia|].
  rewrite IH. unfold sha256_absorb. case_bool_decide; simpl; lia.
Qed.

(** The object fed a message gives the digest the standard defines. *)
Lemma sha256_digest_update msg :
  sha256_digest (sha256_update sha256_new msg) = SHA256.hash msg.
Proof.
  unfold sha256_digest, SHA256.hash.
  rewrite sha256_update_len, <- sha256_update_app. simpl.
  by rewrite sha256_update_regs.
Qed.

(** So does the object fed the message in pieces. *)
Lemma sha256_update_chunks chunks o :
  fold_left sha256_update chunks o = sha256_update o (concat chunks).
Proof.
  revert o. induction chunks as [|c chunks IH]; intros o; simpl; [done|].
  by rewrite IH, sha256_update_app.
Qed.

Lemma chunks_of_concat k n data :
  (0 < n)%nat → (length data ≤ k)%nat → concat (chunks_of k n data) = data.
Proof.
  intros Hn. revert data. induction k as [|k IH]; intros data Hk; simpl.
  - destruct data; [done | simpl in Hk; lia].
  - destruct data as [|b data]; [done|].
    change (concat (?x :: ?l)) with (x ++ concat l).
    rewrite IH, take_drop; [done|].
    rewrite length_drop. simpl in *. lia.
Qed.

(** ** Digests in hexadecimal *)

Lemma be_bytes_length k n : length (be_bytes k n) = k.
Proof. induction k; simpl; auto. Qed.

Lemma regs_bytes_length r : length (SHA256.regs_bytes r) = 32%nat.
Proof. unfold SHA256.regs_bytes. by rewrite !length_app, !be_bytes_length. Qed.

Lemma hash_length msg : length (SHA256.hash msg) = 32%nat.
Proof. apply regs_bytes_length. Qed.

Lemma string_of_list_ascii_length l :
  String.length (string_of_list_ascii l) = length l.
Proof. induction l; simpl; auto. Qed.

Lemma hex_of_bytes_length bs :
  String.length (hex_of_bytes bs) = (2 * length bs)%nat.
Proof.
  unfold hex_of_bytes. rewrite string_of_list_ascii_length.
  induction bs as [|b bs IH]; simpl; [done|]. rewrite IH. lia.
Qed.

Lemma hex_digit_lower n : is_lower_hex (hex_digit n).
Proof.
  unfold is_lower_hex, hex_digit.
  destruct (_ !! N.to_nat n) as [c|] eqn:E; simpl.
  - by eapply list_elem_of_lookup_2.
  - simpl. left.
Qed.

Lemma hex_of_bytes_lower bs :
  Forall is_lower_hex (list_ascii_of_string (hex_of_bytes bs)).
Proof.
  unfold hex_of_bytes. rewrite list_ascii_of_string_of_list_ascii.
  induction bs as [|b bs IH]; simpl; [constructor|].
  constructor; [apply hex_digit_lower|].
  constructor; [apply hex_digit_lower|]. exact IH.
Qed.

(** ** Reading and hashing files *)

Lemma hits_bad_split f lo mid hi :
  (lo ≤ mid ≤ hi)%nat →
  hits_bad f lo hi = hits_bad f lo mid || hits_bad f mid hi.
Proof.
  intros H. unfold hits_bad. destruct (f_bad f) as [b|]; [|done].
  repeat case_bool_decide; simpl; try done; lia.
Qed.

Lemma hits_bad_empty f lo hi : (hi ≤ lo)%nat → hits_bad f lo hi = false.
Proof.
  intros H. unfold hits_bad. destruct (f_bad f) as [b|]; [|done].
  case_bool_decide; [lia|done].
Qed.

Lemma chunks_of_fuel k k' n data :
  (0 < n)%nat → (length data ≤ k)%nat → (length data ≤ k')%nat →
  chunks_of k n data = chunks_of k' n data.
Proof.
  intros Hn. revert k' data. induction k as [|k IH]; intros k' data Hk Hk'.
  - destruct data; [|simpl in Hk; lia]. by destruct k'.
  - destruct data as [|b data]; [by destruct k'|].
    destruct k' as [|k']; [simpl in Hk'; lia|]. simpl. f_equal.
    apply IH; rewrite length_drop; simpl in *; lia.
Qed.

Lemma drop_length_take {A} n (l : list A) :
  drop (length (take n l)) l = drop n l.
Proof.
  rewrite length_take. destruct (decide (n ≤ length l)%nat).
  - by rewrite Nat.min_l.
  - rewrite Nat.min_r by lia. by rewrite !drop_ge by lia.
Qed.

(** The loop reads the rest of the file in chunks of 8192 bytes and feeds
    each to the hash object, unless a read fails. *)
Lemma hash_chunks_spec h o w :
  hash_chunks h o w =
  (if hits_bad (h_file h) (h_pos h) (length (f_data (h_file h)))
   then Raise (OSError_EIO (h_path h))
   else Return (fold_left sha256_update
                  (chunks_of (remaining h) 8192 (drop (h_pos h) (f_data (h_file h))))
                  o),
   w).
Proof.
  funelim (hash_chunks h o w);
  set (n := 8192%nat) in *;
  assert (Hn : (0 < n)%nat) by (apply Nat.ltb_lt; by vm_compute);
  clearbody n;
  match goal with
  | Hread : (if ?c then _ else _) = _ |- _ =>
      destruct c eqn:Hb; try discriminate Hread;
      first [injection Hread as Hc Hf | injection Hread as He]
  end.
  - (* end of file *)
    assert (drop (h_pos f) (f_data (h_file f)) = []) as Hnil.
    { destruct (drop _ _); [done|]. destruct n; [lia|done]. }
    rewrite hits_bad_empty.
    + rewrite Hnil. by destruct (remaining f).
    + apply (f_equal length) in Hnil. rewrite length_drop in Hnil. simpl in Hnil. lia.
  - (* a chunk, then the rest *)
    subst f'.
    match goal with IH : hash_chunks _ _ _ = _ |- _ => rewrite IH end. simpl.
    assert (Hl := f_equal length Hc). rewrite length_take, length_drop in Hl.
    simpl in Hl.
    rewrite (hits_bad_split (h_file f) (h_pos f)
               (h_pos f + length (take n (drop (h_pos f) (f_data (h_file f))))))
      by (rewrite length_take, length_drop; lia).
    rewrite Hb. simpl.
    match goal with |- (if ?c then _ else _, _) = _ => destruct c; [done|] end.
    do 2 f_equal. unfold remaining. cbn [h_pos h_file].
    rewrite <- drop_drop, drop_length_take.
    destruct (length (f_data (h_file f)) - h_pos f)%nat as [|k] eqn:Hk; [lia|].
    assert (Hlen := length_drop (f_data (h_file f)) (h_pos f)).
    destruct (drop (h_pos f) (f_data (h_file f))) as [|b' l] eqn:El;
      [by rewrite take_nil in Hc|].
    cbn [chunks_of fold_left]. rewrite Hc. f_equal.
    apply chunks_of_fuel; [done| |]; rewrite ?length_drop; simpl in *.
    all: lia.
  - (* a failed read *)
    subst e.
    destruct (decide (h_pos f ≤ length (f_data (h_file f)))%nat) as [Hle|Hgt].
    + rewrite (hits_bad_split (h_file f) (h_pos f)
                 (h_pos f + length (take n (drop (h_pos f) (f_data (h_file f))))))
        by (rewrite length_take, length_drop; lia).
      by rewrite Hb.
    + rewrite hits_bad_empty in Hb; [done|].
      rewrite length_take, length_drop. lia.
Qed.

(** Fed in chunks of 8192 bytes, the object gives the digest of the
    file. *)
Lemma stream_digest data :
  sha256_hexdigest
    (fold_left sha256_update (chunks_of (length data) 8192 data) sha256_new)
  = hex_of_bytes (SHA256.hash data).
Proof.
  unfold sha256_hexdigest.
  rewrite sha256_update_chunks, chunks_of_concat, sha256_digest_update;
    [done| |done].
  apply Nat.ltb_lt. by vm_compute.
Qed.

(** The loop body: the error of the read, or the entry of the file. *)
Lemma file_entry_spec p w :
  file_entry p w =
  (match read_error (w_root w) p with
   | Some e => Raise e
   | None => Return (entry_at (w_root w) p)
   end, w).
Proof.
  unfold file_entry, read_error, entry_at, file_data, entry_of.
  unfold mbind, M_bind, mret, M_ret, open_rb, path_stat.
  destruct (walk (w_root w) p) as [[f|es]| |] eqn:Hwalk; try done.
  destruct (f_readable f); [|done]. simpl.
  rewrite hash_chunks_spec. simpl.
  destruct (hits_bad f 0 (length (f_data f))); [done|].
  rewrite Hwalk. unfold remaining. simpl.
  rewrite Nat.sub_0_r, stream_digest. done.
Qed.

Lemma hash_files_spec ps acc w :
  hash_files ps acc w =
  (match first_error (w_root w) ps with
   | Some e => Raise e
   | None => Return (acc ++ (entry_at (w_root w) <$> ps))
   end, w).
Proof.
  revert acc. induction ps as [|p ps IH]; intros acc; simpl.
  - by rewrite app_nil_r.
  - unfold mbind, M_bind. rewrite file_entry_spec.
    destruct (read_error (w_root w) p); [done|].
    rewrite IH. destruct (first_error (w_root w) ps); [done|].
    by rewrite <- app_assoc.
Qed.

Lemma first_error_None root ps :
  first_error root ps = None ↔ ∀ p, p ∈ ps → read_error root p = None.
Proof.
  induction ps as [|p ps IH]; simpl.
  - split; [intros _ p Hp; by apply elem_of_nil in Hp | done].
  - destruct (read_error root p) eqn:E.
    + split; [done|]. intros H. specialize (H p). rewrite E in H.
      apply H. left.
    + rewrite IH. split.
      * intros H q Hq. apply elem_of_cons in Hq as [->|Hq]; auto.
      * intros H q Hq. apply H. by right.
Qed.

Lemma first_error_Some root ps e :
  first_error root ps = Some e → ∃ p, p ∈ ps ∧ read_error root p = Some e.
Proof.
  induction ps as [|p ps IH]; simpl; [done|].
  destruct (read_error root p) eqn:E.
  - intros [= ->]. exists p. split; [left|done].
  - intros H. destruct (IH H) as (q & Hq & He). exists q. split; [by right|done].
Qed.

Lemma read_error_None root p :
  read_error root p = None ↔
  ∃ f, walk root p = Found (File f) ∧ can_read f = true.
Proof.
  unfold read_error, can_read.
  destruct (walk root p) as [[f|es]| |];
    try (split; [done|intros (?&?&?); done]).
  split.
  - intros H. exists f. split; [done|].
    destruct (f_readable f); [|done].
    by destruct (hits_bad f 0 (length (f_data f))).
  - intros (f' & [= <-] & H). apply andb_true_iff in H as [-> H].
    apply negb_true_iff in H. by rewrite H.
Qed.

(** ** Listing and sorting *)

Lemma str_lt_irrefl a : ¬ str_lt a a.
Proof. unfold str_lt. by rewrite string_compare_refl. Qed.

Lemma str_lt_trans a b c : str_lt a b → str_lt b c → str_lt a c.
Proof. apply string_compare_trans. Qed.

Lemma str_lt_asym a b : str_lt a b → str_lt b a → False.
Proof. intros H1 H2. exact (str_lt_irrefl a (str_lt_trans _ _ _ H1 H2)). Qed.

Lemma StronglySorted_str_lt_NoDup ns : StronglySorted str_lt ns → NoDup ns.
Proof.
  induction 1 as [|x l Hl IH Hx]; constructor; [|done].
  intros Hin. rewrite Forall_forall in Hx.
  exact (str_lt_irrefl x (Hx x Hin)).
Qed.

(** A strictly sorted list is determined by its elements. *)
Lemma StronglySorted_str_lt_unique l1 l2 :
  StronglySorted str_lt l1 → StronglySorted str_lt l2 →
  (∀ n, n ∈ l1 ↔ n ∈ l2) → l1 = l2.
Proof.
  intros H1 H2 Hiff.
  apply (StronglySorted_unique_strong str_lt); auto.
  - intros x y _ _ Hxy Hyx. destruct (str_lt_asym _ _ Hxy Hyx).
  - apply NoDup_Permutation; auto using StronglySorted_str_lt_NoDup.
Qed.

Lemma StronglySorted_join dir ns :
  NoDup ns → StronglySorted path_le (path_join dir <$> ns) →
  StronglySorted str_lt ns.
Proof.
  induction ns as [|n ns IH]; simpl; [constructor|].
  intros Hnd Hs. apply NoDup_cons in Hnd as [Hn Hnd].
  apply StronglySorted_inv in Hs as [Hs Hall].
  constructor; [by apply IH|].
  rewrite Forall_forall. intros m Hm.
  rewrite Forall_forall in Hall.
  specialize (Hall (path_join dir m)).
  rewrite path_le_join in Hall.
  destruct Hall as [->|]; [|done|done].
  apply list_elem_of_fmap. eauto.
Qed.

(** Sorting the children of a directory sorts their names. *)
Lemma sorted_join dir l :
  NoDup l →
  ∃ ns, sorted (path_join dir <$> l) = path_join dir <$> ns ∧
        ns ≡ₚ l ∧ StronglySorted str_lt ns.
Proof.
  intros Hnd. unfold sorted.
  pose proof (merge_sort_Permutation path_le (path_join dir <$> l)) as Hperm.
  apply Permutation_map_inv in Hperm as (ns & Heq & Hperm').
  exists ns. split; [done|]. split; [by symmetry|].
  apply (StronglySorted_join dir).
  - by rewrite <- Hperm'.
  - change (map (path_join dir) ns) with (path_join dir <$> ns) in Heq.
    rewrite <- Heq. apply StronglySorted_merge_sort; apply _.
Qed.

Lemma path_glob_dir dir pat w es :
  walk (w_root w) dir = Found (Dir es) →
  path_glob dir pat w =
  (Return (path_join dir <$>
             filter (λ name, fnmatchcase name pat = true) (elements (dom es))),
   w).
Proof. intros H. unfold path_glob. by rewrite H. Qed.

Lemma path_glob_not_dir dir pat w :
  (∀ es, walk (w_root w) dir ≠ Found (Dir es)) →
  path_glob dir pat w = (Return [], w).
Proof.
  intros H. unfold path_glob.
  destruct (walk (w_root w) dir) as [[f|es]| |]; try done.
  by destruct (H es).
Qed.

(** The sorted listing of a directory: the names that end in [.parquet],
    each once, in increasing order. *)
Lemma sorted_listing dir (es : gmap string node) :
  ∃ ns,
    sorted (path_join dir <$>
              filter (λ name, fnmatchcase name "*.parquet" = true)
                     (elements (dom es)))
    = path_join dir <$> ns ∧
    StronglySorted str_lt ns ∧
    (∀ n, n ∈ ns ↔ is_Some (es !! n) ∧ ends_with ".parquet" n).
Proof.
  destruct (sorted_join dir
              (filter (λ name, fnmatchcase name "*.parquet" = true)
                      (elements (dom es)))) as (ns & Heq & Hperm & Hs).
  { apply NoDup_filter, NoDup_elements. }
  exists ns. split; [done|]. split; [done|]. intros n. rewrite Hperm.
  rewrite list_elem_of_filter, elem_of_elements, elem_of_dom, fnmatch_parquet.
  tauto.
Qed.

(** ** [create_manifest], step by step *)

Lemma create_manifest_unfold dir stats w :
  create_manifest dir stats w =
  match first_error (w_root w) (listing (w_root w) dir) with
  | Some e => (Raise e, w)
  | None =>
      let parquet_files := entry_at (w_root w) <$> listing (w_root w) dir in
      let manifest := manifest_dict (isoformat (w_clock w)) stats parquet_files in
      let manifest_path := path_join dir "manifest.json" in
      match tree_write manifest_path (w_root w) manifest_path
              (encode_utf8 (json_dumps manifest 2)) with
      | Return root' => (Return manifest_path, with_root root' w)
      | Raise e => (Raise e, w)
      end
  end.
Proof.
  unfold create_manifest, listing, mbind, M_bind, path_glob.
  rewrite hash_files_spec. simpl.
  destruct (first_error _ _); [done|]. simpl.
  unfold write_text, with_root. by destruct (tree_write _ _ _ _).
Qed.

(** Whatever is raised, the world is as it was. *)
Lemma create_manifest_Raise dir stats w e w' :
  create_manifest dir stats w = (Raise e, w') → w' = w.
Proof.
  rewrite create_manifest_unfold.
  destruct (first_error _ _); [by intros [= _ <-]|]. simpl.
  destruct (tree_write _ _ _ _); [done|]. by intros [= _ <-].
Qed.

Lemma entry_at_join root dir es name :
  walk root dir = Found (Dir es) →
  entry_at root (path_join dir name) = dir_entry es name.
Proof.
  intros H. unfold entry_at, dir_entry, file_data.
  rewrite path_name_join, (walk_join _ _ _ _ H).
  by destruct (es !! name) as [[f|es']|].
Qed.

Lemma read_error_join root dir es name :
  walk root dir = Found (Dir es) →
  read_error root (path_join dir name) = None ↔
  ∃ f, es !! name = Some (File f) ∧ can_read f = true.
Proof.
  intros H. rewrite read_error_None, (walk_join _ _ _ _ H).
  destruct (es !! name) as [n|]; split; intros (f & Hf & Hr); try done;
    exists f; split; congruence.
Qed.

(** What a returning call has found and done. *)
Lemma create_manifest_Return dir stats w p w' :
  create_manifest dir stats w = (Return p, w') →
  ∃ es ns root' f',
    walk (w_root w) dir = Found (Dir es) ∧
    listing (w_root w) dir = path_join dir <$> ns ∧
    StronglySorted str_lt ns ∧
    (∀ n, n ∈ ns ↔ is_Some (es !! n) ∧ ends_with ".parquet" n) ∧
    (∀ n, n ∈ ns → ∃ f, es !! n = Some (File f) ∧ can_read f = true) ∧
    can_write es "manifest.json" ∧
    p = path_join dir "manifest.json" ∧
    w' = with_root root' w ∧
    walk root' dir = Found (Dir (<["manifest.json" := File f']> es)) ∧
    f_data f' = encode_utf8 (json_dumps
                  (manifest_dict (isoformat (w_clock w)) stats (dir_entry es <$> ns)) 2) ∧
    f_writable f' = true ∧ f_bad f' = None ∧
    tree_write p (w_root w) p (f_data f') = Return root' ∧
    (∀ q, q ≠ p → view_at root' q = view_at (w_root w) q).
Proof.
  rewrite create_manifest_unfold.
  destruct (first_error _ _) eqn:Herr; [done|]. simpl.
  destruct (tree_write _ _ _ _) as [root'|] eqn:Hw; [|done].
  intros [= <- <-].
  pose proof Hw as Hw'.
  apply tree_write_Return in Hw as (es & f' & Hdir & Hname & Hdir' & Hframe).
  destruct (sorted_listing dir es) as (ns & Hns & Hsorted & Hmem).
  assert (listing (w_root w) dir = path_join dir <$> ns) as Hlist
    by (unfold listing; by rewrite Hdir).
  rewrite Hlist in *.
  assert (entry_at (w_root w) <$> (path_join dir <$> ns) = dir_entry es <$> ns)
    as Hentries.
  { rewrite <- list_fmap_compose. apply list_fmap_ext.
    intros _ n _. simpl. by apply entry_at_join. }
  rewrite Hentries in Hname, Hw'.
  assert (f_data f' = encode_utf8 (json_dumps
            (manifest_dict (isoformat (w_clock w)) stats (dir_entry es <$> ns)) 2))
    as Hdata by (by destruct Hname as [[_ ->]|(f & _ & _ & ->)]).
  exists es, ns, root', f'. split_and!; try done.
  - intros n Hn. apply (read_error_join _ _ _ _ Hdir).
    rewrite first_error_None in Herr. apply Herr.
    apply list_elem_of_fmap. eauto.
  - destruct Hname as [[? _]|(f & ? & ? & _)]; [by left|right; eauto].
  - by destruct Hname as [[_ ->]|(f & _ & ? & ->)].
  - by destruct Hname as [[_ ->]|(f & _ & _ & ->)].
  - by rewrite Hdata.
Qed.

Lemma manifest_written_join root dir es f m :
  walk root dir = Found (Dir (<["manifest.json" := File f]> es)) →
  f_data f = encode_utf8 (json_dumps m 2) →
  manifest_written root dir m.
Proof.
  intros Hdir Hdata. unfold manifest_written, file_data.
  by rewrite (walk_join _ _ _ _ Hdir), lookup_insert_eq, Hdata.
Qed.

(** When a call returns. *)
Lemma create_manifest_ok dir stats w es :
  walk (w_root w) dir = Found (Dir es) →
  (∀ n, is_Some (es !! n) → ends_with ".parquet" n →
        ∃ f, es !! n = Some (File f) ∧ can_read f = true) →
  can_write es "manifest.json" →
  ∃ w', create_manifest dir stats w = (Return (path_join dir "manifest.json"), w').
Proof.
  intros Hdir Hfiles Hwrite. rewrite create_manifest_unfold.
  destruct (sorted_listing dir es) as (ns & Hns & Hsorted & Hmem).
  assert (listing (w_root w) dir = path_join dir <$> ns) as ->
    by (unfold listing; by rewrite Hdir).
  assert (first_error (w_root w) (path_join dir <$> ns) = None) as ->.
  { apply first_error_None. intros p Hp.
    apply list_elem_of_fmap in Hp as (n & -> & Hn).
    apply (read_error_join _ _ _ _ Hdir). apply Hmem in Hn as [? ?]. auto. }
  simpl.
  pose proof (tree_write_cases (path_join dir "manifest.json") (w_root w) dir
                "manifest.json"
                (encode_utf8 (json_dumps (manifest_dict (isoformat (w_clock w)) stats
                   (entry_at (w_root w) <$> (path_join dir <$> ns))) 2))) as Hc.
  rewrite Hdir in Hc.
  destruct Hwrite as [Hnone|(f & Hf & Hw)].
  - rewrite Hnone in Hc. destruct Hc as [root' ->]. eauto.
  - rewrite Hf, Hw in Hc. destruct Hc as [root' ->]. eauto.
Qed.

(** A matched entry that cannot be read to its end makes the call raise
    the error of such an entry. *)
Lemma create_manifest_unreadable dir stats w es name :
  walk (w_root w) dir = Found (Dir es) →
  is_Some (es !! name) → ends_with ".parquet" name →
  read_error (w_root w) (path_join dir name) ≠ None →
  ∃ e name',
    create_manifest dir stats w = (Raise e, w) ∧
    is_Some (es !! name') ∧ ends_with ".parquet" name' ∧
    read_error (w_root w) (path_join dir name') = Some e.
Proof.
  intros Hdir Hin Hsuf Herr. rewrite create_manifest_unfold.
  destruct (sorted_listing dir es) as (ns & Hns & Hsorted & Hmem).
  assert (listing (w_root w) dir = path_join dir <$> ns) as ->
    by (unfold listing; by rewrite Hdir).
  destruct (first_error (w_root w) (path_join dir <$> ns)) as [e|] eqn:E.
  - apply first_error_Some in E as (p & Hp & He).
    apply list_elem_of_fmap in Hp as (n & -> & Hn).
    exists e, n. apply Hmem in Hn as [? ?]. done.
  - rewrite first_error_None in E. destruct Herr. apply E.
    apply list_elem_of_fmap. exists name. split; [done|]. by apply Hmem.
Qed.

(** A directory that is not there. *)
Lemma create_manifest_missing dir stats w :
  walk (w_root w) dir = ENOENT →
  create_manifest dir stats w =
  (Raise (FileNotFoundError (path_join dir "manifest.json")), w).
Proof.
  intros Hdir. rewrite create_manifest_unfold. unfold listing. rewrite Hdir.
  simpl.
  pose proof (tree_write_cases (path_join dir "manifest.json") (w_root w) dir
                "manifest.json"
                (encode_utf8 (json_dumps (manifest_dict (isoformat (w_clock w)) stats
                   []) 2))) as Hc.
  rewrite Hdir in Hc. by rewrite Hc.
Qed.

(** A path that runs through a regular file. *)
Lemma create_manifest_not_directory dir stats w :
  walk (w_root w) dir = ENOTDIR ∨ (∃ f, walk (w_root w) dir = Found (File f)) →
  create_manifest dir stats w =
  (Raise (NotADirectoryError (path_join dir "manifest.json")), w).
Proof.
  intros Hdir. rewrite create_manifest_unfold. unfold listing.
  pose proof (tree_write_cases (path_join dir "manifest.json") (w_root w) dir
                "manifest.json"
                (encode_utf8 (json_dumps (manifest_dict (isoformat (w_clock w)) stats
                   []) 2))) as Hc.
  destruct Hdir as [Hdir|[f Hdir]]; rewrite Hdir in *; simpl; by rewrite Hc.
Qed.

(** ** Strings *)

Lemma str_app_assoc a b c : (a +:+ b) +:+ c = a +:+ (b +:+ c).
Proof. induction a as [|x a IH]; simpl; [done|]. by rewrite IH. Qed.

Lemma str_app_length a b :
  String.length (a +:+ b) = (String.length a + String.length b)%nat.
Proof. induction a as [|x a IH]; simpl; [done|]. by rewrite IH. Qed.

Lemma str_app_inv a a' b b' :
  String.length a = String.length a' → a +:+ b = a' +:+ b' → a = a' ∧ b = b'.
Proof.
  revert a'. induction a as [|x a IH]; intros [|x' a']; simpl; try done.
  intros [= Hlen] [= -> Heq]. destruct (IH _ Hlen Heq) as [-> ->]. done.
Qed.

(** ** Timestamps *)

Lemma dec_fixed_length w n : String.length (dec_fixed w n) = w.
Proof.
  revert n. induction w as [|w IH]; intros n; simpl; [done|].
  rewrite str_app_length, IH. simpl. lia.
Qed.

Lemma digit_char_inj n m : digit_char n = digit_char m → (n mod 10 = m mod 10)%N.
Proof.
  unfold digit_char. intros H. apply (f_equal N_of_ascii) in H.
  pose proof (N.mod_upper_bound n 10). pose proof (N.mod_upper_bound m 10).
  rewrite !N_ascii_embedding in H by lia. lia.
Qed.

Lemma dec_fixed_inj w n m :
  dec_fixed w n = dec_fixed w m → (n mod 10 ^ N.of_nat w = m mod 10 ^ N.of_nat w)%N.
Proof.
  revert n m. induction w as [|w IH]; intros n m; simpl.
  - intros _. by rewrite !N.mod_1_r.
  - intros H. apply str_app_inv in H as [H1 H2];
      [|by rewrite !dec_fixed_length].
    injection H2 as H2. apply digit_char_inj in H2. apply IH in H1.
    rewrite Nat2N.inj_succ, N.pow_succ_r'.
    rewrite !(N.Div0.mod_mul_r _ 10). lia.
Qed.

Lemma dec_fixed_inj_lt w n m :
  (n < 10 ^ N.of_nat w)%N → (m < 10 ^ N.of_nat w)%N →
  dec_fixed w n = dec_fixed w m → n = m.
Proof.
  intros Hn Hm H. apply dec_fixed_inj in H.
  by rewrite !N.mod_small in H.
Qed.

(** The timestamp always carries the UTC offset. *)
Lemma isoformat_offset dt : ends_with "+00:00" (isoformat dt).
Proof.
  unfold isoformat, ends_with. eexists.
  rewrite <- !str_app_assoc. reflexivity.
Qed.

(** Distinct moments print differently. *)
Lemma isoformat_inj dt1 dt2 :
  valid_datetime dt1 → valid_datetime dt2 →
  isoformat dt1 = isoformat dt2 → dt1 = dt2.
Proof.
  destruct dt1 as [y1 mo1 d1 h1 mi1 s1 u1], dt2 as [y2 mo2 d2 h2 mi2 s2 u2].
  unfold valid_datetime, isoformat.
  cbn [year month day hour minute second microsecond].
  intros (Hy1 & Hmo1 & Hd1 & Hh1 & Hmi1 & Hs1 & Hu1)
         (Hy2 & Hmo2 & Hd2 & Hh2 & Hmi2 & Hs2 & Hu2) H.
  apply str_app_inv in H as [Hy H]; [|by rewrite !dec_fixed_length].
  apply str_app_inv in H as [_ H]; [|done].
  apply str_app_inv in H as [Hmo H]; [|by rewrite !dec_fixed_length].
  apply str_app_inv in H as [_ H]; [|done].
  apply str_app_inv in H as [Hd H]; [|by rewrite !dec_fixed_length].
  apply str_app_inv in H as [_ H]; [|done].
  apply str_app_inv in H as [Hh H]; [|by rewrite !dec_fixed_length].
  apply str_app_inv in H as [_ H]; [|done].
  apply str_app_inv in H as [Hmi H]; [|by rewrite !dec_fixed_length].
  apply str_app_inv in H as [_ H]; [|done].
  apply str_app_inv in H as [Hs H]; [|by rewrite !dec_fixed_length].
  apply dec_fixed_inj_lt in Hy, Hmo, Hd, Hh, Hmi, Hs;
    try (change (10 ^ N.of_nat 4)%N with 10000%N);
    try (change (10 ^ N.of_nat 2)%N with 100%N); try lia.
  subst. f_equal.
  destruct (N.eqb_spec u1 0) as [->|Hn1], (N.eqb_spec u2 0) as [->|Hn2];
    try done.
  apply str_app_inv in H as [Hu _];
    [|by rewrite !str_app_length, !dec_fixed_length].
  apply str_app_inv in Hu as [_ Hu]; [|done].
  apply dec_fixed_inj_lt in Hu;
    try (change (10 ^ N.of_nat 6)%N with 1000000%N); lia.
Qed.

(** ** The text written *)

Lemma manifest_text generated_at stats files :
  json_dumps (manifest_dict generated_at stats files) 2 =
  manifest_layout generated_at (json_encode 2 1 (JObj stats))
                               (json_encode 2 1 (JArr files)).
Proof.
  unfold json_dumps, manifest_dict, manifest_layout.
  cbn [json_encode map String.concat fst snd].
  change (newline_indent 2 1) with (newline +:+ "  ").
  change (newline_indent 2 0) with newline.
  rewrite !str_app_assoc. reflexivity.
Qed.

(** ** Running again *)

Lemma overwrite_same f :
  f_bad f = None → overwrite f (f_data f) = f.
Proof. destruct f. simpl. by intros ->. Qed.

(** After a call that returned, a second call returns too, whatever the
    clock shows by then; it finds the same files, and differs from the
    first only by the timestamp. *)
Lemma create_manifest_again dir stats w p w1 t2 :
  create_manifest dir stats w = (Return p, w1) →
  ∃ es ns f1 root2 f2,
    walk (w_root w) dir = Found (Dir es) ∧
    walk (w_root w1) dir = Found (Dir (<["manifest.json" := File f1]> es)) ∧
    f_data f1 = encode_utf8 (json_dumps
                  (manifest_dict (isoformat (w_clock w)) stats (dir_entry es <$> ns)) 2) ∧
    create_manifest dir stats (at_time t2 w1)
    = (Return p, with_root root2 (at_time t2 w1)) ∧
    walk root2 dir = Found (Dir (<["manifest.json" := File f2]> es)) ∧
    f_data f2 = encode_utf8 (json_dumps
                  (manifest_dict (isoformat t2) stats (dir_entry es <$> ns)) 2) ∧
    (∀ q, q ≠ p → view_at root2 q = view_at (w_root w1) q) ∧
    (isoformat t2 = isoformat (w_clock w) → root2 = w_root w1).
Proof.
  intros Hrun1.
  apply create_manifest_Return in Hrun1
    as (es & ns & root1 & f1 & Hdir & _ & Hsorted & Hmem & Hread & _ & -> & ->
        & Hdir1 & Hdata1 & Hw1 & Hbad1 & _ & _).
  set (es1 := <["manifest.json" := File f1]> es) in *.
  assert (∀ n, ends_with ".parquet" n → es1 !! n = es !! n) as Hsame.
  { intros n Hn. unfold es1. apply lookup_insert_ne. intros <-.
    by apply manifest_json_not_parquet. }
  assert (∀ n, is_Some (es1 !! n) ∧ ends_with ".parquet" n ↔ n ∈ ns) as Hmem1.
  { intros n. rewrite Hmem. split; intros [H1 H2]; (split; [|done]).
    - by rewrite <- Hsame.
    - by rewrite Hsame. }
  destruct (create_manifest_ok dir stats (at_time t2 (with_root root1 w)) es1)
    as [w2 Hrun2]; [done| | |].
  { intros n Hn Hsuf. rewrite Hsame by done. apply Hread, Hmem1. done. }
  { right. exists f1. split; [apply lookup_insert_eq|done]. }
  pose proof Hrun2 as Hret.
  apply create_manifest_Return in Hret
    as (es2 & ns2 & root2 & f2 & Hdir2 & _ & Hsorted2 & Hmem2 & _ & _ & _ & ->
        & Hdir2' & Hdata2 & _ & _ & Hwrite2 & Hframe2).
  simpl in Hdir2. rewrite Hdir1 in Hdir2. injection Hdir2 as <-.
  assert (ns2 = ns) as ->.
  { apply StronglySorted_str_lt_unique; [done|done|].
    intros n. by rewrite Hmem2, Hmem1. }
  assert (dir_entry es1 <$> ns = dir_entry es <$> ns) as Hentries.
  { apply list_fmap_ext. intros _ n Hn%list_elem_of_lookup_2.
    unfold dir_entry. rewrite Hsame; [done|]. by apply Hmem. }
  rewrite Hentries in Hdata2. simpl in Hdata2.
  exists es, ns, f1, root2, f2. split_and!; try done.
  - unfold es1 in Hdir2'. by rewrite insert_insert_eq in Hdir2'.
  - intros Hts. simpl in Hwrite2.
    rewrite (tree_write_same _ _ _ f1) in Hwrite2.
    + by injection Hwrite2.
    + rewrite (walk_join _ _ _ _ Hdir1). unfold es1.
      by rewrite lookup_insert_eq.
    + done.
    + rewrite Hdata2, Hts, <- Hdata1. by apply overwrite_same.
Qed.

(** ** The [manifest] command *)

Lemma manifest_with_missing build data_dir w :
  (∀ n, walk (w_root w) (default ["data"] data_dir) ≠ Found n) →
  manifest_with build data_dir w =
  (Raise (Exit 1),
   {| w_root := w_root w; w_clock := w_clock w; w_stdout := w_stdout w;
      w_stderr := w_stderr w ++
        ["Error: Directory " +:+ path_str (default ["data"] data_dir) +:+
         " does not exist"] |}).
Proof.
  intros Hmiss. unfold manifest_with, mbind, M_bind, path_exists.
  destruct (walk (w_root w) (default ["data"] data_dir)) as [n| |] eqn:E;
    [by destruct (Hmiss n)|done|done].
Qed.

(** ** [json.dumps] writes ASCII *)

Lemma is_ascii_app a b : is_ascii (a +:+ b) = is_ascii a && is_ascii b.
Proof. induction a as [|c a IH]; simpl; [done|]. by rewrite IH, andb_assoc. Qed.

Lemma is_ascii_concat sep l :
  is_ascii sep = true → Forall (λ s, is_ascii s = true) l →
  is_ascii (String.concat sep l) = true.
Proof.
  intros Hsep. induction 1 as [|s l Hs Hl IH]; simpl; [done|].
  destruct l as [|s' l]; [done|].
  rewrite !is_ascii_app, Hs, Hsep. exact IH.
Qed.

Lemma escape_char_ascii c : is_ascii (escape_char c) = true.
Proof. by destruct c as [[] [] [] [] [] [] [] []]. Qed.

Lemma escape_chars_ascii s : is_ascii (escape_chars s) = true.
Proof.
  induction s as [|c s IH]; simpl; [done|].
  by rewrite is_ascii_app, escape_char_ascii, IH.
Qed.

Lemma encode_basestring_ascii_ascii s :
  is_ascii (encode_basestring_ascii s) = true.
Proof.
  unfold encode_basestring_ascii. simpl.
  by rewrite is_ascii_app, escape_chars_ascii.
Qed.

Lemma pretty_N_go_ascii x s :
  is_ascii s = true → is_ascii (pretty_N_go x s) = true.
Proof.
  revert s. induction (N.lt_wf_0 x) as [x _ IH]; intros s Hs.
  assert (x = 0 ∨ 0 < x)%N as [->|?] by lia.
  - by rewrite pretty_N_go_0.
  - rewrite pretty_N_go_step by done. apply IH.
    { by apply N.div_lt. }
    simpl. rewrite Hs. unfold pretty_N_char. by repeat case_match.
Qed.

Lemma pretty_Z_ascii (z : Z) : is_ascii (pretty z) = true.
Proof.
  assert (∀ x : N, is_ascii (pretty x) = true) as HN.
  { intros x. unfold pretty, pretty_N. case_decide; [done|].
    by apply pretty_N_go_ascii. }
  destruct z as [|x|x]; [done|apply HN|].
  unfold pretty, pretty_Z. rewrite is_ascii_app. simpl. apply HN.
Qed.

Lemma newline_indent_ascii indent level :
  is_ascii (newline_indent indent level) = true.
Proof.
  unfold newline_indent. rewrite is_ascii_app. simpl.
  induction (indent * level)%nat as [|n IH]; [done|]. exact IH.
Qed.

Lemma json_encode_ascii indent v : ∀ level,
  is_ascii (json_encode indent level v) = true.
Proof.
  revert v. fix IH 1. intros [|[]|z|s|items|members] level.
  - reflexivity.
  - reflexivity.
  - reflexivity.
  - apply pretty_Z_ascii.
  - apply encode_basestring_ascii_ascii.
  - destruct items as [|v items]; [reflexivity|]. cbn [json_encode].
    rewrite !is_ascii_app, !newline_indent_ascii.
    rewrite andb_true_r. apply is_ascii_concat.
    + rewrite is_ascii_app, newline_indent_ascii. reflexivity.
    + generalize (v :: items). intros l.
      induction l as [|v' l IHl]; constructor; [apply IH|exact IHl].
  - destruct members as [|kv members]; [reflexivity|]. cbn [json_encode].
    rewrite !is_ascii_app, !newline_indent_ascii.
    rewrite andb_true_r. apply is_ascii_concat.
    + rewrite is_ascii_app, newline_indent_ascii. reflexivity.
    + generalize (kv :: members). intros l.
      induction l as [|[k v'] l IHl]; constructor; [|exact IHl].
      rewrite !is_ascii_app, encode_basestring_ascii_ascii.
      apply IH.
Qed.

Lemma encode_utf8_ascii s :
  is_ascii s = true → ∀ b, b ∈ encode_utf8 s → (Byte.to_N b < 128)%N.
Proof.
  unfold encode_utf8. induction s as [|c s IH]; simpl.
  - intros _ b Hb. by apply elem_of_nil in Hb.
  - intros [Hc Hs]%andb_true_iff b Hb.
    apply elem_of_app in Hb as [Hb|Hb]; [|by apply IH].
    unfold utf8_char in Hb. rewrite Hc in Hb.
    apply list_elem_of_singleton in Hb as ->.
    revert Hc. by destruct c as [[] [] [] [] [] [] [] []].
Qed.


(** ** [mkdir] *)

Lemma walk_fresh_dirs p q :
  (q `prefix_of` p → ∃ es, walk (fresh_dirs p) q = Found (Dir es)) ∧
  (¬ q `prefix_of` p → walk (fresh_dirs p) q = ENOENT).
Proof.
  revert q. induction p as [|c p IH]; intros [|d q]; simpl.
  - split; [eauto|]. intros []. apply prefix_nil.
  - rewrite lookup_empty. split; [|done].
    intros H. by apply prefix_nil_inv in H.
  - split; [eauto|]. intros []. apply prefix_nil.
  - destruct (decide (d = c)) as [->|Hne].
    + rewrite lookup_singleton_eq. destruct (IH q) as [IH1 IH2]. split.
      * intros H. apply IH1. by apply prefix_cons_inv_2 in H.
      * intros H. apply IH2. intros Hp. apply H. by apply prefix_cons.
    + rewrite lookup_singleton_ne by done. split; [|done].
      intros H. by apply prefix_cons_inv_1 in H.
Qed.

Lemma tree_mkdir_cases {E} full n p :
  match walk n p with
  | Found (Dir _) => tree_mkdir (Err:=E) full n p = Done n
  | Found (File _) => tree_mkdir (Err:=E) full n p = Failed (FileExistsError full)
  | ENOTDIR =>
      tree_mkdir (Err:=E) full n p = Failed (Builtin (NotADirectoryError full))
  | ENOENT => ∃ n', tree_mkdir (Err:=E) full n p = Done n'
  end.
Proof.
  revert n. induction p as [|c p IH]; intros [f|es]; simpl; try done.
  destruct (es !! c) as [n1|] eqn:Hc; [|eauto].
  specialize (IH n1). destruct (walk n1 p) as [[f|es1]| |].
  - by rewrite IH.
  - rewrite IH. by rewrite insert_id.
  - destruct IH as [n' ->]. eauto.
  - by rewrite IH.
Qed.

Lemma tree_mkdir_Done {E} full n p n' :
  tree_mkdir (Err:=E) full n p = Done n' →
  ∀ q,
    match walk n q with
    | Found (File f) => walk n' q = Found (File f)
    | Found (Dir _) => ∃ es', walk n' q = Found (Dir es')
    | ENOTDIR => walk n' q = ENOTDIR
    | ENOENT =>
        (q `prefix_of` p → ∃ es', walk n' q = Found (Dir es')) ∧
        (¬ q `prefix_of` p → walk n' q = ENOENT)
    end.
Proof.
  revert n n'. induction p as [|c p IH]; intros [f|es] n'; simpl; try done.
  - intros [= <-] q. destruct (walk (Dir es) q) as [[f|es1]| |] eqn:Hq; eauto.
    split; [|done]. intros H. apply prefix_nil_inv in H as ->. done.
  - destruct (es !! c) as [n1|] eqn:Hc.
    + destruct (tree_mkdir full n1 p) as [n1'|] eqn:Hrec; [|done].
      intros [= <-] [|d q]; simpl; [eauto|].
      destruct (decide (d = c)) as [->|Hne].
      * rewrite Hc, lookup_insert_eq. specialize (IH _ _ Hrec q).
        destruct (walk n1 q) as [[f|es1]| |]; try done.
        destruct IH as [IH1 IH2]. split.
        -- intros H. apply IH1. by apply prefix_cons_inv_2 in H.
        -- intros H. apply IH2. intros Hp. apply H. by apply prefix_cons.
      * rewrite lookup_insert_ne by done.
        destruct (es !! d) as [n2|]; [destruct (walk n2 q) as [[f|es1]| |]|];
          eauto.
        all: split; [|done]; intros H; by apply prefix_cons_inv_1 in H.
    + intros [= <-] [|d q]; simpl; [eauto|].
      destruct (decide (d = c)) as [->|Hne].
      * rewrite Hc, lookup_insert_eq. destruct (walk_fresh_dirs p q) as [H1 H2].
        split.
        -- intros H. apply H1. by apply prefix_cons_inv_2 in H.
        -- intros H. apply H2. intros Hp. apply H. by apply prefix_cons.
      * rewrite lookup_insert_ne by done.
        destruct (es !! d) as [n2|]; [destruct (walk n2 q) as [[f|es1]| |]|];
          eauto.
        all: split; [|done]; intros H; by apply prefix_cons_inv_1 in H.
Qed.

(** ** Running a command step by step *)

Lemma bind_Done {S E A B} (m : Cmd S E A) (k : A → Cmd S E B) s w b s' w' :
  (m ≫= k) s w = (Done b, s', w') →
  ∃ a s1 w1, m s w = (Done a, s1, w1) ∧ k a s1 w1 = (Done b, s', w').
Proof.
  unfold mbind, Cmd_bind. destruct (m s w) as [[[a|e] s1] w1]; [eauto|done].
Qed.

Lemma bind_run {S E A B} (m : Cmd S E A) (k : A → Cmd S E B) s w :
  (m ≫= k) s w =
  match m s w with
  | (Done a, s1, w1) => k a s1 w1
  | (Failed e, s1, w1) => (Failed e, s1, w1)
  end.
Proof. done. Qed.

Lemma echo_run {S E} msg (s : S) w :
  lift (Err:=E) (echo msg false) s w = (Done (), s, printed [msg] w).
Proof. done. Qed.

Lemma printed_printed a b w : printed b (printed a w) = printed (a ++ b) w.
Proof. unfold printed. simpl. by rewrite app_assoc. Qed.

Lemma dict_get_Done {S E} v key dflt (s : S) w x s' w' :
  dict_get (Err:=E) v key dflt s w = (Done x, s', w') →
  ∃ members, v = JObj members ∧ x = default dflt (json_get key members) ∧
             s' = s ∧ w' = w.
Proof. destruct v; try done. intros [= <- <- <-]. eauto. Qed.

Lemma lift_Done {S E A} (m : M A) (s : S) w a s' w' :
  lift (Err:=E) m s w = (Done a, s', w') → s' = s ∧ m w = (Return a, w').
Proof.
  unfold lift. destruct (m w) as [[a'|e] w1]; [|done]. by intros [= <- <- <-].
Qed.

Lemma path_mkdir_run {S E} p (s : S) w :
  path_mkdir (Err:=E) p s w =
  match tree_mkdir (Err:=E) p (w_root w) p with
  | Done root' => (Done (), s, with_root root' w)
  | Failed e => (Failed e, s, w)
  end.
Proof. done. Qed.

(** The manifest step of a command that goes on: what is written, and
    where. *)
Lemma create_manifest_step dir stats w p w' :
  create_manifest dir stats w = (Return p, w') →
  p = path_join dir "manifest.json" ∧
  manifest_written (w_root w') dir
    (manifest_dict (isoformat (w_clock w)) stats
       (entry_at (w_root w) <$> listing (w_root w) dir)) ∧
  w_clock w' = w_clock w ∧ w_stdout w' = w_stdout w ∧ w_stderr w' = w_stderr w ∧
  (∀ q, q ≠ path_join dir "manifest.json" →
        view_at (w_root w') q = view_at (w_root w) q).
Proof.
  intros Hrun.
  destruct (create_manifest_Return _ _ _ _ _ Hrun)
    as (es & ns & root' & f' & Hdir & Hlist & _ & _ & _ & _ & -> & -> & Hdir'
        & Hdata & _ & _ & _ & Hframe).
  split; [done|]. split; [|by simpl].
  unfold manifest_written, file_data. simpl.
  rewrite (walk_join _ _ _ _ Hdir'), lookup_insert_eq. simpl.
  rewrite Hdata, Hlist. do 4 f_equal.
  rewrite <- list_fmap_compose. apply list_fmap_ext.
  intros _ n _. simpl. symmetry. by apply entry_at_join.
Qed.

Lemma bind_assoc_run {S E A B C} (m : Cmd S E A) (k : A → Cmd S E B)
    (k' : B → Cmd S E C) s w :
  ((m ≫= k) ≫= k') s w = (m ≫= (λ a, k a ≫= k')) s w.
Proof. unfold mbind, Cmd_bind. by destruct (m s w) as [[[?|?] ?] ?]. Qed.

Lemma bind_ext_run {S E A B} (m : Cmd S E A) (k k' : A → Cmd S E B) s w :
  (∀ a s w, k a s w = k' a s w) → (m ≫= k) s w = (m ≫= k') s w.
Proof.
  intros H. unfold mbind, Cmd_bind. by destruct (m s w) as [[[?|?] ?] ?].
Qed.


(** * Part III: the claims *)

Lemma entry_name_dir_entry es n : entry_name (dir_entry es n) = Some n.
Proof. done. Qed.

Lemma data_file_iff dir w es (ns : list string) :
  walk (w_root w) dir = Found (Dir es) →
  (∀ n, n ∈ ns ↔ is_Some (es !! n) ∧ ends_with ".parquet" n) →
  (∀ n, n ∈ ns → ∃ f, es !! n = Some (File f) ∧ can_read f = true) →
  ∀ n, n ∈ ns ↔ ∃ f, is_data_file (w_root w) dir n f.
Proof.
  intros Hdir Hmem Hread n. unfold is_data_file.
  rewrite (walk_join _ _ _ _ Hdir). split.
  - intros Hn. destruct (Hread n Hn) as (f & Hf & _). exists f.
    rewrite Hf. split; [done|]. by apply Hmem.
  - intros (f & Hf & Hsuf). apply Hmem. split; [|done].
    by destruct (es !! n).
Qed.

Lemma data_file_lookup dir w es name f :
  walk (w_root w) dir = Found (Dir es) →
  is_data_file (w_root w) dir name f →
  es !! name = Some (File f) ∧ ends_with ".parquet" name.
Proof.
  intros Hdir [Hwalk Hsuf]. rewrite (walk_join _ _ _ _ Hdir) in Hwalk.
  split; [|done]. destruct (es !! name) as [n|]; [|done].
  by injection Hwalk as ->.
Qed.

(** C1: for every data file matched in the output directory, the entry
    the manifest records for it holds the SHA-256 digest of the file's
    bytes, as 64 lowercase hexadecimal characters, computed by feeding the
    file to the hash object in chunks of 8192 bytes, and as size the length
    of the file that [stat] reports. *)
Theorem create_manifest_entry_digest_size dir stats w p w' :
  create_manifest dir stats w = (Return p, w') →
  ∃ files,
    manifest_written (w_root w') dir
      (manifest_dict (isoformat (w_clock w)) stats files) ∧
    ∀ name f, is_data_file (w_root w) dir name f →
      ∃ sha size,
        JObj [("name", JStr name); ("size", JInt size); ("sha256", JStr sha)]
          ∈ files ∧
        (∀ e, e ∈ files → entry_name e = Some name →
           e = JObj [("name", JStr name); ("size", JInt size);
                     ("sha256", JStr sha)]) ∧
        sha = hex_of_bytes (SHA256.hash (f_data f)) ∧
        sha = sha256_hexdigest
                (fold_left sha256_update
                   (chunks_of (length (f_data f)) 8192 (f_data f)) sha256_new) ∧
        String.length sha = 64%nat ∧
        Forall is_lower_hex (list_ascii_of_string sha) ∧
        size = Z.of_nat (length (f_data f)) ∧
        path_stat (path_join dir name) w = (Return {| st_size := size |}, w).
Proof.
  intros Hrun.
  apply create_manifest_Return in Hrun
    as (es & ns & root' & f' & Hdir & _ & Hsorted & Hmem & Hread & _ & -> & ->
        & Hdir' & Hdata & _ & _ & _ & _).
  exists (dir_entry es <$> ns). split; [by eapply manifest_written_join|].
  intros name f Hfile.
  destruct (data_file_lookup _ _ _ _ _ Hdir Hfile) as [Hf Hsuf].
  assert (dir_entry es name = entry_of name (f_data f)) as Hentry
    by (unfold dir_entry; by rewrite Hf).
  exists (hex_of_bytes (SHA256.hash (f_data f))), (Z.of_nat (length (f_data f))).
  split; [|split; [|split; [done|split; [|split; [|split; [|split; [done|]]]]]]].
  - apply list_elem_of_fmap. exists name. split; [done|].
    apply Hmem. by rewrite Hf.
  - intros e He Hname. apply list_elem_of_fmap in He as (n & -> & Hn).
    rewrite entry_name_dir_entry in Hname. by injection Hname as ->.
  - by rewrite stream_digest.
  - by rewrite hex_of_bytes_length, hash_length.
  - apply hex_of_bytes_lower.
  - unfold path_stat. destruct Hfile as [-> _]. done.
Qed.

(** C2: for a directory with N data files, the manifest written has a
    [files] array of exactly N entries, in strictly increasing order of
    name (so without duplicates); and for a directory holding exactly
    [a.parquet] with the eight bytes [AAAAAAAA] and an empty [b.parquet],
    [files] is the entry of the first followed by the entry of the second,
    with sizes 8 and 0 and the digests of those two inputs (and the call
    does return when the two files can be read). *)
Theorem create_manifest_files_sorted :
  (∀ dir stats w p w',
     create_manifest dir stats w = (Return p, w') →
     ∃ files names,
       manifest_written (w_root w') dir
         (manifest_dict (isoformat (w_clock w)) stats files) ∧
       entry_name <$> files = Some <$> names ∧
       StronglySorted str_lt names ∧
       NoDup names ∧
       (∀ n, n ∈ names ↔ ∃ f, is_data_file (w_root w) dir n f) ∧
       (∀ X : gset string,
          (∀ n, n ∈ X ↔ ∃ f, is_data_file (w_root w) dir n f) →
          length files = size X)) ∧
  (∀ dir stats w fa fb,
     walk (w_root w) dir
     = Found (Dir {[ "a.parquet" := File fa; "b.parquet" := File fb ]}) →
     f_data fa = bytes_of_string "AAAAAAAA" → f_data fb = [] →
     (∀ p w',
        create_manifest dir stats w = (Return p, w') →
        manifest_written (w_root w') dir
          (manifest_dict (isoformat (w_clock w)) stats
             [ JObj [("name", JStr "a.parquet"); ("size", JInt 8);
                     ("sha256", JStr
   "c34ab6abb7b2bb595bc25c3b388c872fd1d575819a8f55cc689510285e212385")];
               JObj [("name", JStr "b.parquet"); ("size", JInt 0);
                     ("sha256", JStr
   "e3b0c44298fc1c149afbf4c8996fb92427ae41e4649b934ca495991b7852b855")] ])) ∧
     (can_read fa = true → can_read fb = true →
      ∃ w',
        create_manifest dir stats w
        = (Return (path_join dir "manifest.json"), w'))).
Proof.
  split.
  - intros dir stats w p w' Hrun.
    apply create_manifest_Return in Hrun
      as (es & ns & root' & f' & Hdir & _ & Hsorted & Hmem & Hread & _ & -> & ->
          & Hdir' & Hdata & _ & _ & _ & _).
    pose proof (data_file_iff _ _ _ _ Hdir Hmem Hread) as Hiff.
    pose proof (StronglySorted_str_lt_NoDup _ Hsorted) as Hnd.
    exists (dir_entry es <$> ns), ns. split_and!; try done.
    + by eapply manifest_written_join.
    + rewrite <- list_fmap_compose. by apply list_fmap_ext.
    + intros X HX. rewrite length_fmap.
      unfold size, set_size. simpl. apply Permutation_length.
      apply NoDup_Permutation; [done|apply NoDup_elements|].
      intros n. by rewrite elem_of_elements, HX, Hiff.
  - intros dir stats w fa fb Hdir Ha Hb.
    set (es := {[ "a.parquet" := File fa; "b.parquet" := File fb ]}
           : gmap string node) in *.
    assert (∀ n, is_Some (es !! n) ↔ n = "a.parquet" ∨ n = "b.parquet") as Hes.
    { intros n. unfold es.
      rewrite lookup_insert_is_Some, lookup_singleton_is_Some.
      split; [intros [?|[_ ?]]|intros [-> | ->]]; auto. }
    split.
    + intros p w' Hrun.
      apply create_manifest_Return in Hrun
        as (es' & ns & root' & f' & Hdir0 & _ & Hsorted & Hmem & _ & _ & _ & ->
            & Hdir' & Hdata & _ & _ & _ & _).
      rewrite Hdir in Hdir0. injection Hdir0 as <-.
      assert (ns = ["a.parquet"; "b.parquet"]) as ->.
      { apply StronglySorted_str_lt_unique; [done| |].
        - repeat constructor.
        - intros n. rewrite Hmem, Hes, !elem_of_cons, elem_of_nil.
          split.
          + intros [[-> | ->] _]; auto.
          + intros [-> | [-> | [] ] ]; (split; [auto|]);
              apply fnmatch_parquet; by vm_compute. }
      eapply manifest_written_join; [done|]. rewrite Hdata.
      do 4 f_equal. simpl. unfold dir_entry, es.
      rewrite lookup_insert_eq, lookup_insert_ne, lookup_singleton_eq by done.
      rewrite Ha, Hb. by vm_compute.
    + intros Hra Hrb. apply (create_manifest_ok dir stats w es Hdir).
      * intros n Hn _.
        apply Hes in Hn as [-> | ->]; [exists fa|exists fb]; done.
      * by left.
Qed.

(** C3: when the output directory does not exist, [create_manifest] fails
    with [FileNotFoundError] and writes nothing; the [manifest] command
    prints an error that contains the directory path and exits with status
    1, whatever the manifest builder would do: it is not called. *)
Theorem missing_directory_fails data_dir stats w :
  let dir := default ["data"] data_dir in
  walk (w_root w) dir = ENOENT →
  create_manifest dir stats w
  = (Raise (FileNotFoundError (path_join dir "manifest.json")), w) ∧
  file_data (w_root w) (path_join dir "manifest.json") = None ∧
  ∀ build,
    ∃ message w',
      manifest_with build data_dir w = (Raise (Exit 1), w') ∧
      manifest data_dir w = (Raise (Exit 1), w') ∧
      exit_status (manifest data_dir w).1 = 1 ∧
      w_stderr w' = w_stderr w ++ [message] ∧
      message = "Error: Directory " +:+ path_str dir +:+ " does not exist" ∧
      (∃ pre post, message = pre +:+ path_str dir +:+ post) ∧
      w_root w' = w_root w ∧ w_stdout w' = w_stdout w.
Proof.
  intros dir Hdir. split; [by apply create_manifest_missing|].
  split.
  { unfold file_data, path_join. by rewrite walk_app, Hdir. }
  intros build.
  assert (∀ n, walk (w_root w) (default ["data"] data_dir) ≠ Found n) as Hmiss
    by (intros n; fold dir; by rewrite Hdir).
  eexists _, _. split; [by apply manifest_with_missing|].
  split; [by apply manifest_with_missing|].
  split; [unfold manifest; by rewrite manifest_with_missing|].
  split; [done|]. split; [done|]. split; [|done].
  by exists "Error: Directory ", " does not exist".
Qed.

(** C4: when a matched entry cannot be read to its end (no permission, a
    directory, a failing device), [create_manifest] raises the error of
    such an entry and leaves the world as it was: nothing is written, an
    older manifest stays as it is.  The same holds for the loop over any
    list of paths (a listing gone stale), and for every exception the
    function raises. *)
Theorem unreadable_file_aborts dir stats w es name :
  walk (w_root w) dir = Found (Dir es) →
  is_Some (es !! name) → ends_with ".parquet" name →
  read_error (w_root w) (path_join dir name) ≠ None →
  (∃ e name',
     create_manifest dir stats w = (Raise e, w) ∧
     is_Some (es !! name') ∧ ends_with ".parquet" name' ∧
     read_error (w_root w) (path_join dir name') = Some e) ∧
  (∀ files acc p,
     p ∈ files → read_error (w_root w) p ≠ None →
     ∃ e, hash_files files acc w = (Raise e, w)) ∧
  (∀ dir' stats' e w',
     create_manifest dir' stats' w = (Raise e, w') → w' = w).
Proof.
  intros Hdir Hin Hsuf Herr. split; [by eapply create_manifest_unreadable|].
  split.
  - intros files acc p Hp Hp'. rewrite hash_files_spec.
    destruct (first_error (w_root w) files) as [e|] eqn:E; [by exists e|].
    rewrite first_error_None in E. destruct Hp'. by apply E.
  - intros dir' stats' e w'. apply create_manifest_Raise.
Qed.

(** C5: a second run over the directory, at whatever time the clock then
    shows, returns as the first did and records the same [files] entries;
    its [generated_at] is the time of the second run, which differs from
    the first timestamp when the two moments differ; nothing but the
    manifest changes, and with the same timestamp not even that. *)
Theorem rerun_same_files dir stats w p w1 t2 :
  create_manifest dir stats w = (Return p, w1) →
  ∃ files w2,
    manifest_written (w_root w1) dir
      (manifest_dict (isoformat (w_clock w)) stats files) ∧
    create_manifest dir stats (at_time t2 w1) = (Return p, w2) ∧
    manifest_written (w_root w2) dir
      (manifest_dict (isoformat t2) stats files) ∧
    (∀ q, q ≠ p → view_at (w_root w2) q = view_at (w_root w1) q) ∧
    (valid_datetime (w_clock w) → valid_datetime t2 → t2 ≠ w_clock w →
     isoformat t2 ≠ isoformat (w_clock w)) ∧
    (t2 = w_clock w → w2 = w1).
Proof.
  intros Hrun. pose proof Hrun as Hret.
  apply create_manifest_Return in Hret
    as (_ & _ & root1 & _ & _ & _ & _ & _ & _ & _ & _ & Hw1 & _).
  destruct (create_manifest_again dir stats w p w1 t2 Hrun)
    as (es & ns & f1 & root2 & f2 & Hdir & Hdir1 & Hdata1 & Hrun2 & Hdir2
        & Hdata2 & Hframe & Hsame).
  exists (dir_entry es <$> ns), (with_root root2 (at_time t2 w1)).
  split_and!; try done.
  - by eapply manifest_written_join.
  - by eapply manifest_written_join.
  - intros Hv1 Hv2 Hne Heq. apply Hne. by apply isoformat_inj.
  - intros ->. rewrite Hsame by done. subst w1. by destruct w.
Qed.

(** C6: a call that returns has written, to [manifest.json] in the output
    directory and in place of whatever file was there, the serialisation
    of a record with exactly the keys [schema_version] (the package's
    constant), [generated_at] (the clock's UTC time in ISO format, ending
    in the offset [+00:00]), [cvec_db_version] (the string [0.1.0]),
    [stats] and [files], in this order, one member per line with an
    indentation of two spaces; and it returns the path of that file. *)
Theorem manifest_record_and_file dir stats w p w' :
  create_manifest dir stats w = (Return p, w') →
  p = path_join dir "manifest.json" ∧
  ∃ files members,
    members = [("schema_version", JInt MANIFEST_SCHEMA_VERSION);
               ("generated_at", JStr (isoformat (w_clock w)));
               ("cvec_db_version", JStr "0.1.0");
               ("stats", JObj stats);
               ("files", JArr files)] ∧
    ends_with "+00:00" (isoformat (w_clock w)) ∧
    file_data (w_root w') p = Some (encode_utf8 (json_dumps (JObj members) 2)) ∧
    json_dumps (JObj members) 2
    = manifest_layout (isoformat (w_clock w))
        (json_encode 2 1 (JObj stats)) (json_encode 2 1 (JArr files)).
Proof.
  intros Hrun.
  apply create_manifest_Return in Hrun
    as (es & ns & root' & f' & Hdir & _ & _ & _ & _ & _ & -> & ->
        & Hdir' & Hdata & _ & _ & _ & _).
  split; [done|]. eexists (dir_entry es <$> ns), _. split; [done|].
  split; [apply isoformat_offset|]. split.
  - by eapply manifest_written_join.
  - apply manifest_text.
Qed.

(** C7: the [stats] member of the manifest is the mapping the caller
    passed, whatever it is (for instance [{"cves": 42}], or the empty
    mapping), and the text written holds its serialisation at the place of
    that member. *)
Theorem stats_pass_through dir stats w p w' :
  create_manifest dir stats w = (Return p, w') →
  ∃ members generated_at files_text,
    manifest_written (w_root w') dir (JObj members) ∧
    json_get "stats" members = Some (JObj stats) ∧
    json_dumps (JObj members) 2
    = manifest_layout generated_at (json_encode 2 1 (JObj stats)) files_text.
Proof.
  intros Hrun.
  apply create_manifest_Return in Hrun
    as (es & ns & root' & f' & Hdir & _ & _ & _ & _ & _ & -> & ->
        & Hdir' & Hdata & _ & _ & _ & _).
  eexists _, _, _. split; [by eapply manifest_written_join|].
  split; [done|]. apply manifest_text.
Qed.

(** C8, as amended: for an existing directory with no entry whose name
    matches [*.parquet], [create_manifest] hashes nothing, and what it does
    is to serialise the manifest with [files] the empty array and to write
    it: the call returns, with that manifest in [manifest.json], whenever
    the write returns, and raises what the write raises otherwise.  That
    the directory holds nothing to hash is never a cause of failure. *)
Theorem empty_directory_manifest dir stats w es :
  walk (w_root w) dir = Found (Dir es) →
  (∀ n, is_Some (es !! n) → ¬ ends_with ".parquet" n) →
  let manifest_path := path_join dir "manifest.json" in
  let manifest := manifest_dict (isoformat (w_clock w)) stats [] in
  listing (w_root w) dir = [] ∧
  create_manifest dir stats w
  = (write_text manifest_path (json_dumps manifest 2);; mret manifest_path) w ∧
  (∀ w', write_text manifest_path (json_dumps manifest 2) w = (Return (), w') →
         create_manifest dir stats w = (Return manifest_path, w') ∧
         manifest_written (w_root w') dir manifest) ∧
  (∀ e w', write_text manifest_path (json_dumps manifest 2) w = (Raise e, w') →
           create_manifest dir stats w = (Raise e, w')).
Proof.
  intros Hdir Hnone manifest_path manifest.
  assert (listing (w_root w) dir = []) as Hlist.
  { destruct (sorted_listing dir es) as (ns & Hns & _ & Hmem).
    unfold listing. rewrite Hdir, Hns.
    destruct ns as [|n ns]; [done|].
    destruct (Hmem n) as [[Hn Hsuf] _]; [left|]. by destruct (Hnone n Hn). }
  assert (create_manifest dir stats w
          = (write_text manifest_path (json_dumps manifest 2);;
             mret manifest_path) w) as Hrun.
  { rewrite create_manifest_unfold, Hlist. simpl.
    unfold mbind, M_bind, write_text. fold manifest_path. fold manifest.
    by destruct (tree_write _ _ _ _). }
  split; [done|]. split; [done|]. split.
  - intros w' Hw.
    assert (create_manifest dir stats w = (Return manifest_path, w')) as Hret.
    { rewrite Hrun. unfold mbind, M_bind. by rewrite Hw. }
    split; [done|].
    apply create_manifest_Return in Hret
      as (es' & ns & root' & f' & Hdir0 & Hl & _ & _ & _ & _ & _ & ->
          & Hdir' & Hdata & _).
    rewrite Hlist in Hl. symmetry in Hl. apply fmap_nil_inv in Hl as ->.
    by eapply manifest_written_join.
  - intros e w' Hw. rewrite Hrun. unfold mbind, M_bind. by rewrite Hw.
Qed.

(** C9: a call that returns has created or overwritten one file, the
    manifest; every other path shows what it showed before, so every data
    file is still there with the bytes it had; the clock and the output
    streams are untouched. *)
Theorem only_manifest_written dir stats w p w' :
  create_manifest dir stats w = (Return p, w') →
  p = path_join dir "manifest.json" ∧
  (∃ f, view_at (w_root w') p = VFile f) ∧
  (∀ q, q ≠ p → view_at (w_root w') q = view_at (w_root w) q) ∧
  (∀ name f, is_data_file (w_root w) dir name f →
             is_data_file (w_root w') dir name f) ∧
  w_clock w' = w_clock w ∧ w_stdout w' = w_stdout w ∧ w_stderr w' = w_stderr w.
Proof.
  intros Hrun.
  apply create_manifest_Return in Hrun
    as (es & ns & root' & f' & Hdir & _ & _ & _ & _ & _ & -> & ->
        & Hdir' & _ & _ & _ & _ & Hframe).
  split; [done|]. split.
  { exists f'. unfold view_at.
    by rewrite (walk_join _ _ _ _ Hdir'), lookup_insert_eq. }
  split; [done|]. split; [|done].
  intros name f [Hwalk Hsuf]. split; [|done]. simpl.
  assert (name ≠ "manifest.json") as Hne
    by (intros ->; by apply manifest_json_not_parquet).
  rewrite (walk_join _ _ _ _ Hdir) in Hwalk.
  rewrite (walk_join _ _ _ _ Hdir'), lookup_insert_ne by done. done.
Qed.

(** C10: the listing holds exactly the direct children of the output
    directory whose name ends in [.parquet], never a path further down;
    and the names in the [files] array of a written manifest are exactly
    the names of the regular files among them, [manifest.json] never being
    one. *)
Theorem selection_is_flat dir stats w :
  (∀ ps w0,
     path_glob dir "*.parquet" w = (Return ps, w0) →
     (∀ q, q ∈ ps ↔
           ∃ name, q = path_join dir name ∧ ends_with ".parquet" name ∧
                   view_at (w_root w) q ≠ VAbsent ∧
                   view_at (w_root w) dir = VDir) ∧
     (∀ sub name, path_join (path_join dir sub) name ∉ ps)) ∧
  (∀ p w',
     create_manifest dir stats w = (Return p, w') →
     ∃ files names,
       manifest_written (w_root w') dir
         (manifest_dict (isoformat (w_clock w)) stats files) ∧
       entry_name <$> files = Some <$> names ∧
       (∀ n, n ∈ names ↔ ∃ f, is_data_file (w_root w) dir n f) ∧
       "manifest.json" ∉ names).
Proof.
  split.
  - intros ps w0 Hglob.
    assert (∀ q, q ∈ ps ↔
              ∃ name, q = path_join dir name ∧ ends_with ".parquet" name ∧
                      view_at (w_root w) q ≠ VAbsent ∧
                      view_at (w_root w) dir = VDir) as Hiff.
    { intros q. unfold path_glob in Hglob. injection Hglob as <- _.
      unfold view_at.
      destruct (walk (w_root w) dir) as [[f|es]| |] eqn:Hdir;
        try (split; [by intros ?%elem_of_nil|by intros (?&?&?&?&?)]).
      rewrite list_elem_of_fmap. split.
      - intros (name & -> & Hname).
        apply list_elem_of_filter in Hname as [Hm Hname].
        apply elem_of_elements, elem_of_dom in Hname as [n Hn].
        exists name. rewrite (walk_join _ _ _ _ Hdir), Hn.
        split_and!; try done; [by apply fnmatch_parquet|by destruct n].
      - intros (name & -> & Hsuf & Hview & _). exists name. split; [done|].
        apply list_elem_of_filter. split; [by apply fnmatch_parquet|].
        apply elem_of_elements, elem_of_dom.
        rewrite (walk_join _ _ _ _ Hdir) in Hview.
        by destruct (es !! name). }
    split; [done|]. intros sub name Hin.
    apply Hiff in Hin as (name' & Heq & _). unfold path_join in Heq.
    apply (f_equal length) in Heq. rewrite !length_app in Heq. simpl in Heq. lia.
  - intros p w' Hrun.
    apply create_manifest_Return in Hrun
      as (es & ns & root' & f' & Hdir & _ & Hsorted & Hmem & Hread & _ & -> & ->
          & Hdir' & Hdata & _ & _ & _ & _).
    exists (dir_entry es <$> ns), ns. split_and!.
    + by eapply manifest_written_join.
    + rewrite <- list_fmap_compose. by apply list_fmap_ext.
    + by apply (data_file_iff _ _ _ _ Hdir).
    + intros Hin. apply Hmem in Hin as [_ Hsuf].
      by apply manifest_json_not_parquet.
Qed.

(** * Part III, continued: further properties of the code *)

(** ** [create_manifest]: when it returns, and what it raises *)

Lemma listing_dir root dir es :
  walk root dir = Found (Dir es) →
  ∃ ns,
    listing root dir = path_join dir <$> ns ∧
    StronglySorted str_lt ns ∧
    (∀ n, n ∈ ns ↔ is_Some (es !! n) ∧ ends_with ".parquet" n).
Proof.
  intros Hdir. destruct (sorted_listing dir es) as (ns & Hns & Hsorted & Hmem).
  exists ns. split; [|done]. unfold listing. by rewrite Hdir.
Qed.

(** In a sorted list, the first error is the error of the least name that
    has one. *)
Lemma first_error_least root dir ns name e :
  StronglySorted str_lt ns → name ∈ ns →
  read_error root (path_join dir name) = Some e →
  (∀ m, m ∈ ns → str_lt m name → read_error root (path_join dir m) = None) →
  first_error root (path_join dir <$> ns) = Some e.
Proof.
  induction ns as [|x ns IH]; intros Hsorted Hin He Hless.
  - by apply elem_of_nil in Hin.
  - apply StronglySorted_inv in Hsorted as [Hsorted Hall].
    rewrite Forall_forall in Hall. simpl.
    apply elem_of_cons in Hin as [<-|Hin]; [by rewrite He|].
    rewrite (Hless x); [|left|by apply Hall].
    apply IH; auto. intros m Hm. apply Hless. by right.
Qed.

(** X2: when the output path is a regular file, or runs through one,
    [create_manifest] lists nothing, assembles a manifest without files
    and fails at the write with [NotADirectoryError]; the world is as it
    was. *)
Theorem output_path_through_file dir stats w :
  view_at (w_root w) dir ≠ VDir → walk (w_root w) dir ≠ ENOENT →
  listing (w_root w) dir = [] ∧
  create_manifest dir stats w
  = (Raise (NotADirectoryError (path_join dir "manifest.json")), w).
Proof.
  intros Hview Hne. split.
  - unfold listing, view_at in *.
    by destruct (walk (w_root w) dir) as [[f|es]| |].
  - apply create_manifest_not_directory. unfold view_at in Hview.
    destruct (walk (w_root w) dir) as [[f|es]| |]; eauto; done.
Qed.

(** X3: when every matching entry can be read but [manifest.json] is a
    directory, or a file without write permission, the call fails at the
    write, with [IsADirectoryError] or [PermissionError], after the
    hashing, and leaves the old file as it is. *)
Theorem manifest_destination_errors dir stats w es :
  walk (w_root w) dir = Found (Dir es) →
  (∀ n, is_Some (es !! n) → ends_with ".parquet" n →
        ∃ f, es !! n = Some (File f) ∧ can_read f = true) →
  (∀ sub, es !! "manifest.json" = Some (Dir sub) →
     create_manifest dir stats w
     = (Raise (IsADirectoryError (path_join dir "manifest.json")), w)) ∧
  (∀ f, es !! "manifest.json" = Some (File f) → f_writable f = false →
     create_manifest dir stats w
     = (Raise (PermissionError (path_join dir "manifest.json")), w)).
Proof.
  intros Hdir Hread.
  destruct (listing_dir _ _ _ Hdir) as (ns & Hlist & _ & Hmem).
  assert (first_error (w_root w) (listing (w_root w) dir) = None) as Herr.
  { rewrite Hlist. apply first_error_None. intros p Hp.
    apply list_elem_of_fmap in Hp as (n & -> & Hn).
    apply (read_error_join _ _ _ _ Hdir). apply Hmem in Hn as [? ?]. auto. }
  split.
  - intros sub Hsub. rewrite create_manifest_unfold, Herr. simpl.
    pose proof (tree_write_cases (path_join dir "manifest.json") (w_root w) dir
                  "manifest.json"
                  (encode_utf8 (json_dumps
                     (manifest_dict (isoformat (w_clock w)) stats
                        (entry_at (w_root w) <$> listing (w_root w) dir)) 2)))
      as Hc.
    rewrite Hdir, Hsub in Hc. by rewrite Hc.
  - intros f Hf Hw. rewrite create_manifest_unfold, Herr. simpl.
    pose proof (tree_write_cases (path_join dir "manifest.json") (w_root w) dir
                  "manifest.json"
                  (encode_utf8 (json_dumps
                     (manifest_dict (isoformat (w_clock w)) stats
                        (entry_at (w_root w) <$> listing (w_root w) dir)) 2)))
      as Hc.
    rewrite Hdir, Hf, Hw in Hc. by rewrite Hc.
Qed.

(** X4: the files are hashed in the order of their names and the first
    failure ends the call: the exception raised is the one of the least
    matching name that cannot be read, whatever comes after it and
    whatever the state of [manifest.json]. *)
Theorem first_unreadable_decides dir stats w es name e :
  walk (w_root w) dir = Found (Dir es) →
  is_Some (es !! name) → ends_with ".parquet" name →
  read_error (w_root w) (path_join dir name) = Some e →
  (∀ m, is_Some (es !! m) → ends_with ".parquet" m → str_lt m name →
        read_error (w_root w) (path_join dir m) = None) →
  create_manifest dir stats w = (Raise e, w).
Proof.
  intros Hdir Hin Hsuf He Hless.
  destruct (listing_dir _ _ _ Hdir) as (ns & Hlist & Hsorted & Hmem).
  rewrite create_manifest_unfold, Hlist.
  rewrite (first_error_least _ _ _ name e); auto.
  - by apply Hmem.
  - intros m Hm Hlt. apply Hmem in Hm as [? ?]. auto.
Qed.

(** X5: the order in which the directory hands out its entries does not
    matter: sorting any rearrangement of the listing gives the same list,
    so the loop sees the same files in the same order. *)
Theorem sorted_listing_order ps ps' acc w :
  ps ≡ₚ ps' →
  sorted ps = sorted ps' ∧
  hash_files (sorted ps) acc w = hash_files (sorted ps') acc w.
Proof.
  intros Hperm.
  assert (sorted ps = sorted ps') as ->; [|done].
  unfold sorted. apply (StronglySorted_unique path_le).
  - apply StronglySorted_merge_sort; apply _.
  - apply StronglySorted_merge_sort; apply _.
  - by rewrite !merge_sort_Permutation.
Qed.

(** ** The [manifest] command *)

(** Reading a parquet file for its row count. *)
Lemma read_parquet_len_spec p w :
  read_parquet_len p w =
  (match read_error (w_root w) p with
   | Some e => Raise e
   | None =>
       match parquet_height (default [] (file_data (w_root w) p)) with
       | Some n => Return n
       | None => Raise (ParquetError p)
       end
   end, w).
Proof.
  unfold read_parquet_len, read_error, file_data, mbind, M_bind, open_rb.
  destruct (walk (w_root w) p) as [[f|es]| |]; try done.
  destruct (f_readable f); [|done]. simpl.
  unfold handle_read. simpl. rewrite drop_0, firstn_all.
  destruct (hits_bad f 0 (length (f_data f))); [done|]. simpl.
  by destruct (parquet_height (f_data f)).
Qed.

(** The statistics the command recovers from the directory. *)
Lemma manifest_with_exists build data_dir w n0 :
  walk (w_root w) (default ["data"] data_dir) = Found n0 →
  manifest_with build data_dir w =
  let dir := default ["data"] data_dir in
  let cves := path_join dir "cves.parquet" in
  match (if walk (w_root w) cves is Found _
         then match read_parquet_len cves w with
              | (Return n, w1) => (Return [("cves", JInt n)], w1)
              | (Raise e, w1) => (Raise e, w1)
              end
         else (Return [], w)) with
  | (Return stats, w1) =>
      match build dir stats w1 with
      | (Return p, w2) => echo ("Manifest created: " +:+ path_str p) false w2
      | (Raise e, w2) => (Raise e, w2)
      end
  | (Raise e, w1) => (Raise e, w1)
  end.
Proof.
  intros Hdir. unfold manifest_with, mbind, M_bind, path_exists.
  rewrite Hdir. simpl.
  destruct (walk (w_root w) (path_join (default ["data"] data_dir) "cves.parquet"));
    simpl; try done.
  all: by destruct (read_parquet_len _ w) as [[n|e] w1].
Qed.

(** X6: the guard of the command is [exists()], not [is_dir()]: for a path
    that runs through a regular file the command prints its error and
    exits with 1 as for a missing directory, and for a path that is a
    regular file it goes on, recovers no statistics, and fails in
    [create_manifest] with [NotADirectoryError] and status 1, the file
    tree and the standard output as they were. *)
Theorem manifest_guard_is_exists data_dir w :
  let dir := default ["data"] data_dir in
  (walk (w_root w) dir = ENOTDIR →
   ∃ w',
     manifest data_dir w = (Raise (Exit 1), w') ∧
     w_stderr w' = w_stderr w ++
       ["Error: Directory " +:+ path_str dir +:+ " does not exist"] ∧
     w_root w' = w_root w) ∧
  (∀ f, walk (w_root w) dir = Found (File f) →
     manifest data_dir w
     = (Raise (NotADirectoryError (path_join dir "manifest.json")), w) ∧
     exit_status (manifest data_dir w).1 = 1).
Proof.
  intros dir. split.
  - intros Hdir. eexists. split.
    + apply manifest_with_missing. fold dir. intros n. by rewrite Hdir.
    + done.
  - intros f Hdir.
    assert (manifest data_dir w
            = (Raise (NotADirectoryError (path_join dir "manifest.json")), w))
      as Hrun.
    { unfold manifest. rewrite (manifest_with_exists _ _ _ _ Hdir). fold dir.
      cbv zeta. unfold path_join at 1. rewrite walk_app, Hdir. simpl.
      rewrite create_manifest_not_directory; [done|]. right. eauto. }
    by rewrite Hrun.
Qed.

(** What the command passes as statistics. *)
Lemma manifest_stats_cases data_dir w n0 :
  let dir := default ["data"] data_dir in
  let cves := path_join dir "cves.parquet" in
  walk (w_root w) dir = Found n0 →
  manifest data_dir w =
  match view_at (w_root w) cves with
  | VAbsent =>
      match create_manifest dir [] w with
      | (Return p, w2) => echo ("Manifest created: " +:+ path_str p) false w2
      | (Raise e, w2) => (Raise e, w2)
      end
  | _ =>
      match read_parquet_len cves w with
      | (Return n, _) =>
          match create_manifest dir [("cves", JInt n)] w with
          | (Return p, w2) => echo ("Manifest created: " +:+ path_str p) false w2
          | (Raise e, w2) => (Raise e, w2)
          end
      | (Raise e, _) => (Raise e, w)
      end
  end.
Proof.
  intros dir cves Hdir. unfold manifest.
  rewrite (manifest_with_exists _ _ _ _ Hdir). subst cves. fold dir. cbv zeta.
  unfold view_at. rewrite read_parquet_len_spec.
  destruct (walk (w_root w) (path_join dir "cves.parquet")) as [[f|es]| |];
    try done.
  - destruct (read_error _ _); [done|]. by destruct (parquet_height _).
  - destruct (read_error _ _); [done|]. by destruct (parquet_height _).
Qed.



(** X8: a [manifest] command that returns has written a manifest whose
    statistics are empty when the directory holds no [cves.parquet], and
    are the row count polars finds in that file when it is there (the file
    is then also one of the entries of [files]); it has printed one line,
    [Manifest created: ...] with the path of the manifest, and has changed
    nothing else. *)
Theorem manifest_success data_dir w w' :
  manifest data_dir w = (Return (), w') →
  let dir := default ["data"] data_dir in
  ∃ stats files,
    match view_at (w_root w) (path_join dir "cves.parquet") with
    | VAbsent => stats = []
    | VFile f =>
        ∃ n, parquet_height (f_data f) = Some n ∧
             stats = [("cves", JInt n)] ∧
             entry_of "cves.parquet" (f_data f) ∈ files
    | VDir => False
    end ∧
    manifest_written (w_root w') dir
      (manifest_dict (isoformat (w_clock w)) stats files) ∧
    w_stdout w' = w_stdout w ++
      ["Manifest created: " +:+ path_str (path_join dir "manifest.json")] ∧
    w_stderr w' = w_stderr w ∧
    (∀ q, q ≠ path_join dir "manifest.json" →
          view_at (w_root w') q = view_at (w_root w) q).
Proof.
  intros Hrun dir.
  destruct (walk (w_root w) dir) as [n0| |] eqn:Hdir0.
  2, 3: unfold manifest in Hrun;
        rewrite manifest_with_missing in Hrun
          by (intros n; fold dir; by rewrite Hdir0); done.
  rewrite (manifest_stats_cases _ _ _ Hdir0) in Hrun. cbv zeta in Hrun.
  fold dir in Hrun.
  assert (∀ stats,
            match create_manifest dir stats w with
            | (Return p, w2) =>
                echo ("Manifest created: " +:+ path_str p) false w2
            | (Raise e0, w2) => (Raise e0, w2)
            end = (Return (), w') →
            ∃ es ns,
              walk (w_root w) dir = Found (Dir es) ∧
              (∀ n, n ∈ ns ↔ is_Some (es !! n) ∧ ends_with ".parquet" n) ∧
              manifest_written (w_root w') dir
                (manifest_dict (isoformat (w_clock w)) stats (dir_entry es <$> ns)) ∧
              w_stdout w' = w_stdout w ++
                ["Manifest created: " +:+ path_str (path_join dir "manifest.json")] ∧
              w_stderr w' = w_stderr w ∧
              (∀ q, q ≠ path_join dir "manifest.json" →
                    view_at (w_root w') q = view_at (w_root w) q)) as Hcm.
  { intros stats H.
    destruct (create_manifest dir stats w) as [[p|e0] w2] eqn:E; [|done].
    apply create_manifest_Return in E
      as (es & ns & root' & f' & Hdir & _ & _ & Hmem & _ & _ & -> & ->
          & Hdir' & Hdata & _ & _ & _ & Hframe).
    injection H as <-. exists es, ns. split_and!; try done.
    by eapply manifest_written_join. }
  unfold view_at in *.
  destruct (walk (w_root w) (path_join dir "cves.parquet"))
    as [[f|sub]| |] eqn:Hcves.
  - rewrite read_parquet_len_spec in Hrun. unfold read_error, file_data in Hrun.
    rewrite Hcves in Hrun.
    destruct (if negb (f_readable f) then _ else _); [done|]. simpl in Hrun.
    destruct (parquet_height (f_data f)) as [n|] eqn:Hn; [|done].
    destruct (Hcm _ Hrun) as (es & ns & Hdir & Hmem & Hw & Hout & Herr & Hframe).
    exists [("cves", JInt n)], (dir_entry es <$> ns). split_and!; try done.
    exists n. split_and!; try done.
    rewrite (walk_join _ _ _ _ Hdir) in Hcves.
    destruct (es !! "cves.parquet") as [n1|] eqn:E; [|done].
    injection Hcves as ->.
    apply list_elem_of_fmap. exists "cves.parquet". split.
    + unfold dir_entry. by rewrite E.
    + apply Hmem. split; [by rewrite E | by exists "cves"].
  - rewrite read_parquet_len_spec in Hrun. unfold read_error in Hrun.
    by rewrite Hcves in Hrun.
  - destruct (Hcm _ Hrun) as (es & ns & Hdir & Hmem & Hw & Hout & Herr & Hframe).
    by exists [], (dir_entry es <$> ns).
  - destruct (Hcm _ Hrun) as (es & ns & Hdir & Hmem & Hw & Hout & Herr & Hframe).
    by exists [], (dir_entry es <$> ns).
Qed.

(** ** The commands that call the [cvec] package *)

(** What [build] and [extract_parquet] share from the result of
    [extract_all] on: the two [get]s, two lines, the manifest. *)
Lemma report_steps dir (result : json) (s : Env) w2
    (last : Path → Cmd Env Err ()) s' w' :
  (stats ← dict_get result "stats" (JObj []);
   cves ← dict_get stats "cves" (JInt 0);
   lift (echo ("Extracted " +:+ py_str cves +:+ " CVEs") false);;
   lift (echo "Creating manifest..." false);;
   manifest_path ← lift (create_manifest dir (members_of stats));
   last manifest_path) s w2 = (Done (), s', w') →
  ∃ members stats w3,
    result = JObj members ∧
    default (JObj []) (json_get "stats" members) = JObj stats ∧
    manifest_written (w_root w3) dir
      (manifest_dict (isoformat (w_clock w2)) stats
         (entry_at (w_root w2) <$> listing (w_root w2) dir)) ∧
    w_stdout w3 = w_stdout w2 ++
      ["Extracted " +:+ py_str (default (JInt 0) (json_get "cves" stats)) +:+
         " CVEs";
       "Creating manifest..."] ∧
    w_stderr w3 = w_stderr w2 ∧
    (∀ q, q ≠ path_join dir "manifest.json" →
          view_at (w_root w3) q = view_at (w_root w2) q) ∧
    last (path_join dir "manifest.json") s w3 = (Done (), s', w').
Proof.
  intros H.
  apply bind_Done in H as (stats & ? & ? & Hget & H).
  apply dict_get_Done in Hget as (members & -> & -> & -> & ->).
  apply bind_Done in H as (cves & ? & ? & Hget & H).
  apply dict_get_Done in Hget as (smembers & Hstats & -> & -> & ->).
  rewrite Hstats in H. simpl members_of in H.
  rewrite bind_run, echo_run, bind_run, echo_run, printed_printed in H.
  apply bind_Done in H as (p & ? & w3 & Hm & H).
  apply lift_Done in Hm as [-> Hm].
  apply create_manifest_step in Hm as (-> & Hwritten & _ & Hout & Herr & Hframe).
  exists members, smembers, w3. by split_and!.
Qed.

(** X9: when the output path is a regular file, or runs through one,
    [build] and [extract_parquet] end at their [mkdir], with
    [FileExistsError] or [NotADirectoryError] for the output path, before
    anything is printed and before the package is called: its state and
    the world are as they were, whatever the package is. *)
Theorem output_directory_blocked od years skip s w :
  let dir := default ["data"] od in
  (∀ f, walk (w_root w) dir = Found (File f) →
     build od years skip s w = (Failed (FileExistsError dir), s, w) ∧
     extract_parquet od years s w = (Failed (FileExistsError dir), s, w)) ∧
  (walk (w_root w) dir = ENOTDIR →
     build od years skip s w = (Failed (Builtin (NotADirectoryError dir)), s, w) ∧
     extract_parquet od years s w
     = (Failed (Builtin (NotADirectoryError dir)), s, w)).
Proof.
  intros dir.
  pose proof (tree_mkdir_cases (E:=Err) dir (w_root w) dir) as Hc.
  split; [intros f Hdir|intros Hdir]; rewrite Hdir in Hc.
  all: unfold build, extract_parquet; fold dir; cbv zeta.
  all: by rewrite !bind_run, !path_mkdir_run, Hc.
Qed.

(** X10: the [mkdir] of the two commands, when it returns, has made the
    output path a directory by making the directories that were missing
    on the way to it, and nothing else: every path that led somewhere
    shows what it showed (a regular file keeps its bytes), a path that
    led nowhere is a new directory when it is a prefix of the output path
    and leads nowhere otherwise; when the output path was a directory
    already, the world is as it was. *)
Theorem output_directory_made p (s : Env) w s' w' :
  path_mkdir (Err:=Err) p s w = (Done (), s', w') →
  s' = s ∧
  w_clock w' = w_clock w ∧ w_stdout w' = w_stdout w ∧ w_stderr w' = w_stderr w ∧
  view_at (w_root w') p = VDir ∧
  (∀ q, walk (w_root w) q ≠ ENOENT →
        view_at (w_root w') q = view_at (w_root w) q) ∧
  (∀ q, walk (w_root w) q = ENOENT →
        view_at (w_root w') q = if bool_decide (q `prefix_of` p) then VDir
                                else VAbsent) ∧
  (view_at (w_root w) p = VDir → w' = w).
Proof.
  rewrite path_mkdir_run.
  destruct (tree_mkdir p (w_root w) p) as [root'|] eqn:Hmk; [|done].
  intros [= <- <-]. simpl.
  pose proof (tree_mkdir_Done _ _ _ _ Hmk) as Hframe.
  pose proof (tree_mkdir_cases (E:=Err) p (w_root w) p) as Hc.
  split_and!; try done.
  - specialize (Hframe p). unfold view_at.
    destruct (walk (w_root w) p) as [[f|es]| |] eqn:Hp.
    + by rewrite Hc in Hmk.
    + by destruct Hframe as [es' ->].
    + destruct Hframe as [Hframe _]. by destruct (Hframe (reflexivity p)) as [es' ->].
    + by rewrite Hc in Hmk.
  - intros q Hq. specialize (Hframe q). unfold view_at.
    destruct (walk (w_root w) q) as [[f|es]| |]; try done.
    + by rewrite Hframe.
    + by destruct Hframe as [es' ->].
    + by rewrite Hframe.
  - intros q Hq. specialize (Hframe q). unfold view_at. rewrite Hq in Hframe.
    destruct Hframe as [H1 H2]. case_bool_decide as Hpre.
    + by destruct (H1 Hpre) as [es' ->].
    + by rewrite (H2 Hpre).
  - unfold view_at. intros Hv.
    destruct (walk (w_root w) p) as [[f|es]| |]; try done.
    rewrite Hc in Hmk. injection Hmk as <-. by destruct w.
Qed.

(** X11: an [extract_parquet] that returns has called [extract_all] for
    the output directory, got a dict from it, and written the manifest of
    the directory as that call left it: the statistics are the dict under
    [stats] in the result (an empty one when the key is absent), the
    entries those of the data files then present, the time that of the
    clock then.  After the call it has printed three lines, the first with
    the count under [cves] (0 when absent), and changed no path but the
    manifest's; the state of the package is as the call left it. *)
Theorem extract_parquet_success od years s w s' w' :
  extract_parquet od years s w = (Done (), s', w') →
  let dir := default ["data"] od in
  ∃ ex s1 w1 w2 members stats,
    extract_all cvec ex dir s1 w1 = (Done (JObj members), s', w2) ∧
    default (JObj []) (json_get "stats" members) = JObj stats ∧
    manifest_written (w_root w') dir
      (manifest_dict (isoformat (w_clock w2)) stats
         (entry_at (w_root w2) <$> listing (w_root w2) dir)) ∧
    w_stdout w' = w_stdout w2 ++
      ["Extracted " +:+ py_str (default (JInt 0) (json_get "cves" stats)) +:+
         " CVEs";
       "Creating manifest...";
       "Manifest created: " +:+ path_str (path_join dir "manifest.json")] ∧
    w_stderr w' = w_stderr w2 ∧
    (∀ q, q ≠ path_join dir "manifest.json" →
          view_at (w_root w') q = view_at (w_root w2) q).
Proof.
  intros H dir. unfold extract_parquet in H. fold dir in H. cbv zeta in H.
  apply bind_Done in H as (? & ? & ? & _ & H).
  apply bind_Done in H as (c & ? & ? & _ & H).
  apply bind_Done in H as (? & ? & ? & _ & H).
  apply bind_Done in H as (? & ? & ? & _ & H).
  rewrite bind_run, echo_run in H.
  apply bind_Done in H as (ex & s1 & w1 & _ & H).
  apply bind_Done in H as (result & s2 & w2 & Hex & H).
  apply report_steps in H
    as (members & stats & w3 & -> & Hstats & Hwritten & Hout & Herr & Hframe & H).
  rewrite echo_run in H. injection H as <- <-.
  exists ex, s1, w1, w2, members, stats. split_and!; try done.
  simpl. rewrite Hout. by rewrite <- app_assoc.
Qed.

(** X12: a [build] that returns has gone through the whole pipeline, each
    step in the state the step before left: the two attributes of the
    configuration were assigned (the years, the output directory) before
    any service was made from it; unless the download is skipped, the
    download service was made after the first line was printed, and
    [download_cves], then [extract_cves], returned on it; then the
    extractor was made, [extract_all] returned a dict for the output
    directory, and the manifest written describes the directory as that
    call left it, with the statistics of its result.  The last four lines
    printed are the count, [Creating manifest...], the manifest path and
    [Build complete!]. *)
Theorem build_success od years skip s w s' w' :
  build od years skip s w = (Done (), s', w') →
  let dir := default ["data"] od in
  ∃ c sy wy sd wd s0 w0 ex s1 w1 w2 members stats,
    set_default_years cvec c years sy wy = (Done (), sd, wd) ∧
    set_data_dir cvec c dir sd wd = (Done (), s0, w0) ∧
    (if skip then
       ExtractorService cvec c s0
         (printed ["Extracting CVE data to parquet..."] w0) = (Done ex, s1, w1)
     else
       ∃ d sa wa ra sb wb rb sc wc,
         DownloadService cvec c s0
           (printed ["Downloading CVE data (last " +:+ pretty years +:+
                       " years)..."] w0) = (Done d, sa, wa) ∧
         download_cves cvec d sa wa = (Done ra, sb, wb) ∧
         extract_cves cvec d sb wb = (Done rb, sc, wc) ∧
         ExtractorService cvec c sc
           (printed ["Download complete."; "Extracting CVE data to parquet..."]
              wc) = (Done ex, s1, w1)) ∧
    extract_all cvec ex dir s1 w1 = (Done (JObj members), s', w2) ∧
    default (JObj []) (json_get "stats" members) = JObj stats ∧
    manifest_written (w_root w') dir
      (manifest_dict (isoformat (w_clock w2)) stats
         (entry_at (w_root w2) <$> listing (w_root w2) dir)) ∧
    w_stdout w' = w_stdout w2 ++
      ["Extracted " +:+ py_str (default (JInt 0) (json_get "cves" stats)) +:+
         " CVEs";
       "Creating manifest...";
       "Manifest created: " +:+ path_str (path_join dir "manifest.json");
       "Build complete!"] ∧
    w_stderr w' = w_stderr w2 ∧
    (∀ q, q ≠ path_join dir "manifest.json" →
          view_at (w_root w') q = view_at (w_root w2) q).
Proof.
  intros H dir. unfold build in H. fold dir in H. cbv zeta in H.
  apply bind_Done in H as (? & ? & ? & _ & H).
  apply bind_Done in H as (c & sy & wy & _ & H).
  apply bind_Done in H as ([] & sd & wd & Hyears & H).
  apply bind_Done in H as ([] & s0 & w0 & Hdir & H).
  apply bind_Done in H as ([] & sc & wc & Hdown & H).
  rewrite bind_run, echo_run in H.
  apply bind_Done in H as (ex & s1 & w1 & Hmake & H).
  apply bind_Done in H as (result & s2 & w2 & Hex & H).
  apply report_steps in H
    as (members & stats & w3 & -> & Hstats & Hwritten & Hout & Herr & Hframe & H).
  rewrite bind_run, !echo_run, printed_printed in H. injection H as <- <-.
  exists c, sy, wy, sd, wd, s0, w0, ex, s1, w1, w2, members, stats.
  split; [done|]. split; [done|]. split.
  - destruct skip; simpl in Hdown.
    + by injection Hdown as <- <-.
    + rewrite bind_run, echo_run in Hdown.
      apply bind_Done in Hdown as (d & sa & wa & Hd & Hdown).
      apply bind_Done in Hdown as (ra & sb & wb & Hdl & Hdown).
      apply bind_Done in Hdown as (rb & sc' & wc' & Hx & Hdown).
      rewrite echo_run in Hdown. injection Hdown as <- <-.
      rewrite printed_printed in Hmake.
      by exists d, sa, wa, ra, sb, wb, rb, sc', wc'.
  - split_and!; try done. simpl. rewrite Hout. by rewrite <- app_assoc.
Qed.

(** X14: [download_json] itself touches no file: a property of the state
    of the package and the file tree that each call the command makes into
    the package keeps, the command keeps, however it ends. *)
Theorem download_json_writes_nothing (P : Env → node → Prop) years s w r s' w' :
  (∀ s w r s' w', Config cvec s w = (r, s', w') →
                  P s (w_root w) → P s' (w_root w')) →
  (∀ c s w r s' w', set_default_years cvec c years s w = (r, s', w') →
                    P s (w_root w) → P s' (w_root w')) →
  (∀ c s w r s' w', DownloadService cvec c s w = (r, s', w') →
                    P s (w_root w) → P s' (w_root w')) →
  (∀ d s w r s' w', download_cves cvec d s w = (r, s', w') →
                    P s (w_root w) → P s' (w_root w')) →
  (∀ d s w r s' w', extract_cves cvec d s w = (r, s', w') →
                    P s (w_root w) → P s' (w_root w')) →
  download_json years s w = (r, s', w') →
  P s (w_root w) → P s' (w_root w').
Proof.
  intros Hconfig Hyears Hservice Hdownload Hextract Hrun HP.
  unfold download_json in Hrun. rewrite bind_run in Hrun.
  destruct (Config cvec s w) as [[[c|e] s1] w1] eqn:H1;
    specialize (Hconfig _ _ _ _ _ H1 HP); [|by injection Hrun as _ <- <-].
  rewrite bind_run in Hrun.
  destruct (set_default_years cvec c years s1 w1) as [[[[]|e] s2] w2] eqn:H2;
    specialize (Hyears _ _ _ _ _ _ H2 Hconfig); [|by injection Hrun as _ <- <-].
  rewrite bind_run, echo_run, bind_run in Hrun.
  destruct (DownloadService cvec c s2 _) as [[[d|e] s3] w3] eqn:H3;
    specialize (Hservice _ _ _ _ _ _ H3 Hyears); [|by injection Hrun as _ <- <-].
  rewrite bind_run in Hrun.
  destruct (download_cves cvec d s3 w3) as [[[r4|e] s4] w4] eqn:H4;
    specialize (Hdownload _ _ _ _ _ _ H4 Hservice);
    [|by injection Hrun as _ <- <-].
  rewrite bind_run in Hrun.
  destruct (extract_cves cvec d s4 w4) as [[[count|e] s5] w5] eqn:H5;
    specialize (Hextract _ _ _ _ _ _ H5 Hdownload);
    [|by injection Hrun as _ <- <-].
  rewrite echo_run in Hrun. by injection Hrun as _ <- <-.
Qed.

(** X16: the manifest file holds ASCII only: whatever the names of the
    data files and the texts in the statistics, every byte written is
    below 128 (what is not ASCII goes out escaped). *)
Theorem manifest_file_is_ascii dir stats w p w' :
  create_manifest dir stats w = (Return p, w') →
  ∃ data,
    file_data (w_root w') p = Some data ∧
    ∀ b, b ∈ data → (Byte.to_N b < 128)%N.
Proof.
  intros Hrun.
  apply create_manifest_step in Hrun as (-> & Hwritten & _).
  eexists. split; [exact Hwritten|].
  apply encode_utf8_ascii, json_encode_ascii.
Qed.

(** The manifest builder looks at the file tree and the clock only. *)
Lemma create_manifest_streams dir stats w out err :
  create_manifest dir stats
    {| w_root := w_root w; w_clock := w_clock w;
       w_stdout := out; w_stderr := err |} =
  match create_manifest dir stats w with
  | (r, w') =>
      (r, {| w_root := w_root w'; w_clock := w_clock w';
             w_stdout := out; w_stderr := err |})
  end.
Proof.
  rewrite !create_manifest_unfold. simpl.
  destruct (first_error _ _); [done|]. simpl.
  by destruct (tree_write _ _ _ _).
Qed.

(** X17: the [manifest] command can be run again: after a run that
    returned, a second run, at whatever time the clock then shows, returns
    too; it recovers the same statistics and records the same [files], so
    the two manifests differ by [generated_at] only; it prints the same
    line once more and changes no path but the manifest's. *)
Theorem manifest_again data_dir w w1 t2 :
  manifest data_dir w = (Return (), w1) →
  let dir := default ["data"] data_dir in
  ∃ stats files w2,
    manifest_written (w_root w1) dir
      (manifest_dict (isoformat (w_clock w)) stats files) ∧
    manifest data_dir (at_time t2 w1) = (Return (), w2) ∧
    manifest_written (w_root w2) dir
      (manifest_dict (isoformat t2) stats files) ∧
    w_stdout w2 = w_stdout w ++
      ["Manifest created: " +:+ path_str (path_join dir "manifest.json");
       "Manifest created: " +:+ path_str (path_join dir "manifest.json")] ∧
    (∀ q, q ≠ path_join dir "manifest.json" →
          view_at (w_root w2) q = view_at (w_root w1) q).
Proof.
  intros Hrun dir.
  destruct (walk (w_root w) dir) as [n0| |] eqn:Hdir.
  2,3: unfold manifest in Hrun; rewrite manifest_with_missing in Hrun;
       [done|intros n; fold dir; by rewrite Hdir].
  rewrite (manifest_stats_cases _ _ _ Hdir) in Hrun. fold dir in Hrun.
  cbv zeta in Hrun.
  (* the statistics of the first run, and its call of the builder *)
  assert (∃ stats p w',
            create_manifest dir stats w = (Return p, w') ∧
            w1 = printed ["Manifest created: " +:+ path_str p] w' ∧
            ∀ wa, walk (w_root wa) (path_join dir "cves.parquet")
                  = walk (w_root w) (path_join dir "cves.parquet") →
                  ∀ n1, walk (w_root wa) dir = Found n1 →
                  manifest data_dir wa =
                  match create_manifest dir stats wa with
                  | (Return p, w2) =>
                      echo ("Manifest created: " +:+ path_str p) false w2
                  | (Raise e, w2) => (Raise e, w2)
                  end)
    as (stats & p & w' & Hbuild & -> & Hsame).
  { unfold view_at in Hrun.
    destruct (walk (w_root w) (path_join dir "cves.parquet"))
      as [[f|es]| |] eqn:Hcves.
    - rewrite read_parquet_len_spec in Hrun. unfold read_error, file_data in Hrun.
      rewrite Hcves in Hrun. simpl in Hrun.
      destruct (negb (f_readable f)) eqn:Hr; [done|].
      destruct (hits_bad f 0 (length (f_data f))) eqn:Hb; [done|].
      destruct (parquet_height (f_data f)) as [n|] eqn:Hn; [|done].
      destruct (create_manifest dir [("cves", JInt n)] w) as [[p|e] w'] eqn:Hb';
        [|done].
      injection Hrun as <-. exists [("cves", JInt n)], p, w'.
      split; [done|]. split; [done|].
      intros wa Hwa n1 Hn1. rewrite (manifest_stats_cases _ _ _ Hn1).
      fold dir. cbv zeta. unfold view_at. rewrite Hwa.
      rewrite read_parquet_len_spec. unfold read_error, file_data.
      rewrite Hwa. simpl. by rewrite Hr, Hb, Hn.
    - rewrite read_parquet_len_spec in Hrun. unfold read_error in Hrun.
      by rewrite Hcves in Hrun.
    - destruct (create_manifest dir [] w) as [[p|e] w'] eqn:Hb'; [|done].
      injection Hrun as <-. exists [], p, w'.
      split; [done|]. split; [done|].
      intros wa Hwa n1 Hn1. rewrite (manifest_stats_cases _ _ _ Hn1).
      fold dir. cbv zeta. unfold view_at. by rewrite Hwa.
    - destruct (create_manifest dir [] w) as [[p|e] w'] eqn:Hb'; [|done].
      injection Hrun as <-. exists [], p, w'.
      split; [done|]. split; [done|].
      intros wa Hwa n1 Hn1. rewrite (manifest_stats_cases _ _ _ Hn1).
      fold dir. cbv zeta. unfold view_at. by rewrite Hwa. }
  destruct (create_manifest_again dir stats w p w' t2 Hbuild)
    as (es & ns & f1 & root2 & f2 & Hdir0 & Hdir1 & Hdata1 & Hrun2 & Hdir2
        & Hdata2 & Hframe & _).
  pose proof Hbuild as Hret.
  apply create_manifest_Return in Hret
    as (_ & _ & root1 & _ & _ & _ & _ & _ & _ & _ & -> & -> & _).
  simpl in Hdir1.
  set (line := "Manifest created: " +:+ path_str (path_join dir "manifest.json")).
  exists stats, (dir_entry es <$> ns),
    (printed [line] (with_root root2 (at_time t2 (printed [line] (with_root root1 w))))).
  split_and!.
  - unfold manifest_written, file_data. simpl.
    by rewrite (walk_join _ _ _ _ Hdir1), lookup_insert_eq, Hdata1.
  - rewrite (Hsame _) with (n1 := Dir (<["manifest.json" := File f1]> es)).
    + pose proof (create_manifest_streams dir stats
                    (at_time t2 (with_root root1 w))
                    (w_stdout w ++ [line]) (w_stderr w)) as Hs.
      simpl in Hs, Hrun2. rewrite Hrun2 in Hs.
      unfold at_time, printed, with_root. simpl. rewrite Hs. done.
    + simpl. rewrite !(walk_join _ dir _ "cves.parquet") by done.
      rewrite lookup_insert_ne; [done|]. intros H.
      by apply (f_equal String.length) in H.
    + done.
  - unfold manifest_written, file_data. simpl.
    by rewrite (walk_join _ _ _ _ Hdir2), lookup_insert_eq, Hdata2.
  - simpl. by rewrite <- app_assoc.
  - simpl. exact Hframe.
Qed.

End cli.

(** * Part IV: the claims at sample worlds *)

(** The run over the sample directory, with schema version 1. *)
Lemma sample_run :
  create_manifest 1 ["data"] sample_stats sample_world
  = (Return ["data"; "manifest.json"],
     (create_manifest 1 ["data"] sample_stats sample_world).2).
Proof. by vm_compute. Defined.

Lemma sample_a_is_data_file :
  is_data_file (w_root sample_world) ["data"] "a.parquet" file_a.
Proof. split; [reflexivity | by exists "a"]. Defined.

(** C1 at the sample directory: the entry of [a.parquet]. *)
Lemma create_manifest_entry_digest_size_witness :
  ∃ files,
    manifest_written (create_manifest 1 ["data"] sample_stats sample_world).2.(w_root)
      ["data"] (manifest_dict 1 (isoformat sample_clock) sample_stats files) ∧
    JObj [("name", JStr "a.parquet"); ("size", JInt 8);
          ("sha256", JStr
   "c34ab6abb7b2bb595bc25c3b388c872fd1d575819a8f55cc689510285e212385")]
      ∈ files.
Proof.
  destruct (create_manifest_entry_digest_size 1 _ _ _ _ _ sample_run)
    as (files & Hw & Hall).
  destruct (Hall _ _ sample_a_is_data_file)
    as (sha & size & Hin & _ & -> & _ & _ & _ & -> & _).
  exists files. split; [exact Hw | exact Hin].
Defined.

(** C2 at a directory with exactly the two files of the scenario. *)
Lemma create_manifest_files_sorted_witness :
  (∃ w',
     create_manifest 1 ["out"] [] pair_world
     = (Return ["out"; "manifest.json"], w')) ∧
  manifest_written (w_root (create_manifest 1 ["out"] [] pair_world).2) ["out"]
    (manifest_dict 1 (isoformat sample_clock) []
       [ JObj [("name", JStr "a.parquet"); ("size", JInt 8);
               ("sha256", JStr
   "c34ab6abb7b2bb595bc25c3b388c872fd1d575819a8f55cc689510285e212385")];
         JObj [("name", JStr "b.parquet"); ("size", JInt 0);
               ("sha256", JStr
   "e3b0c44298fc1c149afbf4c8996fb92427ae41e4649b934ca495991b7852b855")] ]).
Proof.
  destruct (proj2 (create_manifest_files_sorted 1) ["out"] [] pair_world
              file_a file_b eq_refl eq_refl eq_refl) as [Hfiles Hreturns].
  split.
  - exact (Hreturns eq_refl eq_refl).
  - apply (Hfiles ["out"; "manifest.json"]). by vm_compute.
Defined.

(** C3 for a directory that is not there. *)
Lemma missing_directory_fails_witness :
  create_manifest 1 ["missing"] sample_stats sample_world
  = (Raise (FileNotFoundError ["missing"; "manifest.json"]), sample_world) ∧
  (manifest 1 no_parquet (Some ["missing"]) sample_world).1 = Raise (Exit 1) ∧
  w_stderr (manifest 1 no_parquet (Some ["missing"]) sample_world).2
  = ["Error: Directory missing does not exist"].
Proof.
  destruct (missing_directory_fails 1 no_parquet (Some ["missing"])
              sample_stats sample_world eq_refl) as (Hcm & _ & Hcmd).
  split; [exact Hcm|].
  destruct (Hcmd (create_manifest 1))
    as (message & w' & _ & Hm & _ & Herr & -> & _).
  rewrite Hm. split; [reflexivity | exact Herr].
Defined.


Lemma locked_b_listed : is_Some (locked_dir !! "b.parquet").
Proof. by eexists. Defined.


(** C4 with a data file the user may not read. *)
Lemma unreadable_file_aborts_witness :
  ∃ e, create_manifest 1 ["data"] sample_stats locked_world
       = (Raise e, locked_world).
Proof.
  destruct (unreadable_file_aborts 1 ["data"] sample_stats locked_world
              locked_dir "b.parquet" eq_refl locked_b_listed)
    as ((e & name' & Hrun & _) & _).
  - by exists "b".
  - by vm_compute.
  - by exists e.
Defined.


Lemma bare_dir_no_data n :
  is_Some (bare_dir !! n) → ¬ ends_with ".parquet" n.
Proof.
  unfold bare_dir. rewrite lookup_singleton_is_Some. intros <-.
  rewrite <- fnmatch_parquet. by vm_compute.
Defined.


Lemma bare_write_run :
  write_text ["data"; "manifest.json"]
    (json_dumps (manifest_dict 1 (isoformat sample_clock) [] []) 2) bare_world
  = (Return (),
     (write_text ["data"; "manifest.json"]
        (json_dumps (manifest_dict 1 (isoformat sample_clock) [] []) 2)
        bare_world).2).
Proof. by vm_compute. Defined.


(** C8, as amended, at a directory with a text file only: the write
    returns there, and so does the call. *)
Lemma empty_directory_manifest_witness :
  ∃ w',
    create_manifest 1 ["data"] [] bare_world
    = (Return ["data"; "manifest.json"], w') ∧
    manifest_written (w_root w') ["data"]
      (manifest_dict 1 (isoformat sample_clock) [] []).
Proof.
  destruct (empty_directory_manifest 1 ["data"] [] bare_world bare_dir eq_refl
              bare_dir_no_data) as (_ & _ & Hreturns & _).
  eexists. exact (Hreturns _ bare_write_run).
Defined.


(** C5: a second run, a little later. *)
Lemma rerun_same_files_witness :
  ∃ files w2,
    manifest_written
      (w_root (create_manifest 1 ["data"] sample_stats sample_world).2) ["data"]
      (manifest_dict 1 (isoformat sample_clock) sample_stats files) ∧
    create_manifest 1 ["data"] sample_stats
      (at_time later_clock (create_manifest 1 ["data"] sample_stats sample_world).2)
    = (Return ["data"; "manifest.json"], w2) ∧
    manifest_written (w_root w2) ["data"]
      (manifest_dict 1 (isoformat later_clock) sample_stats files).
Proof.
  destruct (rerun_same_files 1 _ _ _ _ _ later_clock sample_run)
    as (files & w2 & H1 & H2 & H3 & _).
  exists files, w2. exact (conj H1 (conj H2 H3)).
Defined.


(** C7 with the stats [{"cves": 42}]. *)
Lemma stats_pass_through_witness :
  ∃ members,
    manifest_written
      (w_root (create_manifest 1 ["data"] sample_stats sample_world).2) ["data"]
      (JObj members) ∧
    json_get "stats" members = Some (JObj [("cves", JInt 42)]).
Proof.
  destruct (stats_pass_through 1 _ _ _ _ _ sample_run)
    as (members & generated_at & files_text & Hw & Hstats & _).
  exists members. exact (conj Hw Hstats).
Defined.


(** C6 at the sample directory, over its old manifest. *)
Lemma manifest_record_and_file_witness :
  ∃ files,
    file_data (w_root (create_manifest 1 ["data"] sample_stats sample_world).2)
      ["data"; "manifest.json"]
    = Some (encode_utf8
              (manifest_layout 1 (isoformat sample_clock)
                 (json_encode 2 1 (JObj sample_stats))
                 (json_encode 2 1 (JArr files)))).
Proof.
  destruct (manifest_record_and_file 1 _ _ _ _ _ sample_run)
    as (_ & files & members & -> & _ & Hfile & Htext).
  exists files. rewrite Htext in Hfile. exact Hfile.
Defined.


(** C8 as stated fails, in two ways.  The directory exists and no entry of
    it matches, but [manifest.json] is a directory there: the write raises,
    and so does the call.  And a directory may hold no matching file and
    still a matching entry, a subdirectory named [old.parquet]: the call
    raises when it opens it to hash it. *)
Lemma empty_directory_counterexample :
  (walk (w_root blocked_world) ["data"] = Found (Dir blocked_dir) ∧
   (∀ n, is_Some (blocked_dir !! n) → ¬ ends_with ".parquet" n) ∧
   (∀ n f, ¬ is_data_file (w_root blocked_world) ["data"] n f) ∧
   create_manifest 1 ["data"] [] blocked_world
   = (Raise (IsADirectoryError ["data"; "manifest.json"]), blocked_world)) ∧
  (walk (w_root nested_world) ["data"] = Found (Dir nested_dir) ∧
   (∀ n f, ¬ is_data_file (w_root nested_world) ["data"] n f) ∧
   create_manifest 1 ["data"] [] nested_world
   = (Raise (IsADirectoryError ["data"; "old.parquet"]), nested_world)).
Proof.
  assert (∀ n, is_Some (blocked_dir !! n) → ¬ ends_with ".parquet" n) as Hnone.
  { intros n. unfold blocked_dir. rewrite lookup_singleton_is_Some. intros <-.
    apply manifest_json_not_parquet. }
  split.
  - split; [reflexivity|]. split; [exact Hnone|]. split; [|by vm_compute].
    intros n f [Hwalk Hsuf]. apply (Hnone n); [|done].
    rewrite (walk_join (w_root blocked_world) ["data"] blocked_dir n eq_refl)
      in Hwalk.
    by destruct (blocked_dir !! n).
  - split; [reflexivity|]. split; [|by vm_compute].
    intros n f [Hwalk _].
    rewrite (walk_join (w_root nested_world) ["data"] nested_dir n eq_refl)
      in Hwalk.
    unfold nested_dir in Hwalk.
    destruct (decide (n = "old.parquet")) as [->|Hne].
    + by rewrite lookup_singleton_eq in Hwalk.
    + by rewrite lookup_singleton_ne in Hwalk.
Qed.

(** C9: a data file and a text file after the run. *)
Lemma only_manifest_written_witness :
  is_data_file
    (w_root (create_manifest 1 ["data"] sample_stats sample_world).2)
    ["data"] "a.parquet" file_a ∧
  view_at (w_root (create_manifest 1 ["data"] sample_stats sample_world).2)
    ["data"; "notes.txt"]
  = view_at (w_root sample_world) ["data"; "notes.txt"].
Proof.
  destruct (only_manifest_written 1 _ _ _ _ _ sample_run)
    as (_ & _ & Hframe & Hdata & _).
  split; [exact (Hdata _ _ sample_a_is_data_file)|].
  apply Hframe. discriminate.
Defined.


(** C10: the data file of the subdirectory is not listed, the old
    manifest is not an entry. *)
Lemma selection_is_flat_witness :
  (["data"; "sub"; "c.parquet"] ∉
     (match (path_glob ["data"] "*.parquet" sample_world).1 with
      | Return ps => ps
      | Raise _ => []
      end)) ∧
  ∃ files names,
    manifest_written
      (w_root (create_manifest 1 ["data"] sample_stats sample_world).2) ["data"]
      (manifest_dict 1 (isoformat sample_clock) sample_stats files) ∧
    entry_name <$> files = Some <$> names ∧ "manifest.json" ∉ names.
Proof.
  destruct (selection_is_flat 1 ["data"] sample_stats sample_world)
    as [Hglob Hrun].
  split.
  - destruct (Hglob _ _ eq_refl) as [_ Hsub]. exact (Hsub "sub" "c.parquet").
  - destruct (Hrun _ _ sample_run) as (files & names & H1 & H2 & _ & H4).
    exists files, names. exact (conj H1 (conj H2 H4)).
Defined.


(** * Part V: the further properties at sample worlds *)

(** X2 with the text file of the sample directory as output directory. *)
Lemma output_path_through_file_witness :
  listing (w_root sample_world) ["data"; "notes.txt"] = [] ∧
  create_manifest 1 ["data"; "notes.txt"] sample_stats sample_world
  = (Raise (NotADirectoryError ["data"; "notes.txt"; "manifest.json"]),
     sample_world).
Proof.
  apply (output_path_through_file 1 ["data"; "notes.txt"] sample_stats
           sample_world); discriminate.
Defined.


Lemma blocked_dir_no_data n :
  is_Some (blocked_dir !! n) → ends_with ".parquet" n →
  ∃ f, blocked_dir !! n = Some (File f) ∧ can_read f = true.
Proof.
  unfold blocked_dir. rewrite lookup_singleton_is_Some. intros <- H.
  by destruct (manifest_json_not_parquet H).
Defined.


(** X3 where [manifest.json] is a directory. *)
Lemma manifest_destination_errors_witness :
  create_manifest 1 ["data"] [] blocked_world
  = (Raise (IsADirectoryError ["data"; "manifest.json"]), blocked_world).
Proof.
  exact (proj1 (manifest_destination_errors 1 ["data"] [] blocked_world
                  blocked_dir eq_refl blocked_dir_no_data) ∅ eq_refl).
Defined.


Lemma locked_dir_before_b m :
  is_Some (locked_dir !! m) → ends_with ".parquet" m → str_lt m "b.parquet" →
  read_error (w_root locked_world) (path_join ["data"] m) = None.
Proof.
  intros Hm Hsuf Hlt.
  apply elem_of_dom, elem_of_elements in Hm.
  replace (elements (dom locked_dir))
    with ["sub"; "manifest.json"; "a.parquet"; "notes.txt"; "b.parquet"]
    in Hm by (by vm_compute).
  repeat (apply elem_of_cons in Hm as [-> | Hm]);
    [..|by apply elem_of_nil in Hm]; try (by vm_compute).
  all: exfalso; revert Hsuf; rewrite <- fnmatch_parquet; by vm_compute.
Defined.


(** X4 with [b.parquet] locked: [a.parquet] before it is readable. *)
Lemma first_unreadable_decides_witness :
  create_manifest 1 ["data"] sample_stats locked_world
  = (Raise (PermissionError ["data"; "b.parquet"]), locked_world).
Proof.
  apply (first_unreadable_decides 1 ["data"] sample_stats locked_world
           locked_dir "b.parquet" _ eq_refl locked_b_listed).
  - by exists "b".
  - reflexivity.
  - exact locked_dir_before_b.
Defined.


(** X5 with two paths handed over in either order. *)
Lemma sorted_listing_order_witness :
  sorted [["out"; "b.parquet"]; ["out"; "a.parquet"]]
  = sorted [["out"; "a.parquet"]; ["out"; "b.parquet"]] ∧
  hash_files (sorted [["out"; "b.parquet"]; ["out"; "a.parquet"]]) [] pair_world
  = hash_files (sorted [["out"; "a.parquet"]; ["out"; "b.parquet"]]) []
      pair_world.
Proof.
  apply (sorted_listing_order [["out"; "b.parquet"]; ["out"; "a.parquet"]]
           [["out"; "a.parquet"]; ["out"; "b.parquet"]] [] pair_world).
  apply perm_swap.
Defined.


(** X6 with the text file of the sample directory as data directory: the
    guard lets it through and the command ends in the exception. *)
Lemma manifest_guard_is_exists_witness :
  manifest 1 no_parquet (Some ["data"; "notes.txt"]) sample_world
  = (Raise (NotADirectoryError ["data"; "notes.txt"; "manifest.json"]),
     sample_world) ∧
  exit_status
    (manifest 1 no_parquet (Some ["data"; "notes.txt"]) sample_world).1 = 1.
Proof.
  exact (proj2 (manifest_guard_is_exists 1 no_parquet
                  (Some ["data"; "notes.txt"]) sample_world) _ eq_refl).
Defined.






Lemma cve_run :
  manifest 1 byte_rows (Some ["data"]) cve_world
  = (Return (), (manifest 1 byte_rows (Some ["data"]) cve_world).2).
Proof. by vm_compute. Defined.


Lemma cve_file_view :
  view_at (w_root cve_world) (path_join ["data"] "cves.parquet")
  = VFile (new_file (bytes_of_string "ROWS")).
Proof. by vm_compute. Defined.


(** X8 at a directory that holds [cves.parquet], a file of four bytes. *)
Lemma manifest_success_witness :
  ∃ files,
    entry_of "cves.parquet" (bytes_of_string "ROWS") ∈ files ∧
    manifest_written
      (w_root (manifest 1 byte_rows (Some ["data"]) cve_world).2) ["data"]
      (manifest_dict 1 (isoformat sample_clock) [("cves", JInt 4)] files) ∧
    w_stdout (manifest 1 byte_rows (Some ["data"]) cve_world).2
    = ["Manifest created: data/manifest.json"].
Proof.
  destruct (manifest_success 1 byte_rows (Some ["data"]) cve_world _ cve_run)
    as (stats & files & Hstats & Hwritten & Hout & _).
  cbn [default id] in Hstats. rewrite cve_file_view in Hstats.
  destruct Hstats as (n & Hn & -> & Hin).
  injection Hn as <-.
  exists files. exact (conj Hin (conj Hwritten Hout)).
Defined.

(** * Part VI: the commands over the [cvec] package *)

(** X13: with [--skip-download] the [build] command is the
    [extract_parquet] command followed by the line [Build complete!], and
    the download service plays no part in it: whatever service the package
    comes with, the run is the same. *)
Theorem skip_download_is_extract_parquet (version : Z) {Env Err : Type}
    (cvec : Services Env Err) (D : Type)
    (service : config_obj cvec → Cmd Env Err D)
    (download extract : D → Cmd Env Err json) od years s w :
  build version (with_downloader cvec D service download extract) od years true
    s w
  = (extract_parquet version cvec od years;;
     lift (echo "Build complete!" false)) s w.
Proof.
  unfold build, extract_parquet. cbv zeta.
  change (negb true) with false. cbv iota.
  do 4 (rewrite bind_assoc_run; apply bind_ext_run; intros ? ? ?).
  rewrite (bind_run (mret ())). simpl.
  repeat (rewrite bind_assoc_run; apply bind_ext_run; intros ? ? ?).
  reflexivity.
Qed.


(** X9 with the text file of the sample directory as output directory. *)
Lemma output_directory_blocked_witness :
  build 1 demo_cvec (Some ["data"; "notes.txt"]) 10 false [] sample_world
  = (Failed (FileExistsError ["data"; "notes.txt"]), [], sample_world) ∧
  extract_parquet 1 demo_cvec (Some ["data"; "notes.txt"]) 10 [] sample_world
  = (Failed (FileExistsError ["data"; "notes.txt"]), [], sample_world).
Proof.
  exact (proj1 (output_directory_blocked 1 demo_cvec
                  (Some ["data"; "notes.txt"]) 10 false [] sample_world)
           _ eq_refl).
Defined.


Lemma demo_mkdir_run :
  path_mkdir (Err:=string) ["out"; "db"] ([] : list string) empty_world
  = (Done (), [],
     (path_mkdir (Err:=string) ["out"; "db"] ([] : list string) empty_world).2).
Proof. by vm_compute. Defined.


(** X10 in an empty working directory: [out/db] is made. *)
Lemma output_directory_made_witness :
  view_at
    (w_root
       (path_mkdir (Err:=string) ["out"; "db"] ([] : list string) empty_world).2)
    ["out"; "db"] = VDir.
Proof.
  exact (proj1 (proj2 (proj2 (proj2 (proj2
           (output_directory_made _ _ _ _ _ demo_mkdir_run)))))).
Defined.


Lemma demo_extract_run :
  extract_parquet 1 demo_cvec None 10 [] empty_world
  = (Done (),
     (extract_parquet 1 demo_cvec None 10 [] empty_world).1.2,
     (extract_parquet 1 demo_cvec None 10 [] empty_world).2).
Proof. by vm_compute. Defined.


(** X11 with the sample package in an empty working directory. *)
Lemma extract_parquet_success_witness :
  ∃ w2 stats,
    manifest_written
      (w_root (extract_parquet 1 demo_cvec None 10 [] empty_world).2) ["data"]
      (manifest_dict 1 (isoformat (w_clock w2)) stats
         (entry_at (w_root w2) <$> listing (w_root w2) ["data"])).
Proof.
  destruct (extract_parquet_success 1 demo_cvec None 10 [] empty_world _ _
              demo_extract_run)
    as (_ & _ & _ & w2 & _ & stats & _ & _ & Hwritten & _).
  exists w2, stats. exact Hwritten.
Defined.


Lemma demo_build_run :
  build 1 demo_cvec (Some ["out"; "db"]) 10 false [] empty_world
  = (Done (),
     (build 1 demo_cvec (Some ["out"; "db"]) 10 false [] empty_world).1.2,
     (build 1 demo_cvec (Some ["out"; "db"]) 10 false [] empty_world).2).
Proof. by vm_compute. Defined.


(** X12 with the sample package, the download included. *)
Lemma build_success_witness :
  ∃ w2 stats,
    manifest_written
      (w_root (build 1 demo_cvec (Some ["out"; "db"]) 10 false [] empty_world).2)
      ["out"; "db"]
      (manifest_dict 1 (isoformat (w_clock w2)) stats
         (entry_at (w_root w2) <$> listing (w_root w2) ["out"; "db"])) ∧
    w_stdout (build 1 demo_cvec (Some ["out"; "db"]) 10 false [] empty_world).2
    = w_stdout w2 ++
      ["Extracted " +:+ py_str (default (JInt 0) (json_get "cves" stats)) +:+
         " CVEs";
       "Creating manifest...";
       "Manifest created: out/db/manifest.json";
       "Build complete!"].
Proof.
  destruct (build_success 1 demo_cvec (Some ["out"; "db"]) 10 false []
              empty_world _ _ demo_build_run)
    as (_ & _ & _ & _ & _ & _ & _ & _ & _ & _ & w2 & _ & stats & _ & _ & _ & _
        & _ & Hwritten & Hout & _).
  exists w2, stats. exact (conj Hwritten Hout).
Defined.


(** X13 with a download service that always fails: the run with
    [--skip-download] is that of [extract_parquet] and a last line. *)
Lemma skip_download_is_extract_parquet_witness :
  build 1
    (with_downloader demo_cvec unit
       (λ _ s w, (Failed (Foreign "offline"), s, w))
       (λ _ s w, (Failed (Foreign "offline"), s, w))
       (λ _ s w, (Failed (Foreign "offline"), s, w)))
    None 10 true [] empty_world
  = (extract_parquet 1 demo_cvec None 10;; lift (echo "Build complete!" false))
      [] empty_world.
Proof.
  exact (skip_download_is_extract_parquet 1 demo_cvec unit _ _ _ None 10 []
           empty_world).
Defined.


Lemma demo_download_run :
  download_json demo_cvec 10 [] sample_world
  = (Done (),
     (download_json demo_cvec 10 [] sample_world).1.2,
     (download_json demo_cvec 10 [] sample_world).2).
Proof. by vm_compute. Defined.


(** X14 with the sample package, which writes no file when it downloads:
    the file tree after [download_json] is the one before. *)
Lemma download_json_writes_nothing_witness :
  w_root (download_json demo_cvec 10 [] sample_world).2 = w_root sample_world.
Proof.
  apply (download_json_writes_nothing demo_cvec
           (λ _ root, root = w_root sample_world) 10 [] sample_world (Done ())
           (download_json demo_cvec 10 [] sample_world).1.2
           (download_json demo_cvec 10 [] sample_world).2).
  - by intros s w r s' w' [= _ _ <-].
  - by intros c s w r s' w' [= _ _ <-].
  - by intros c s w r s' w' [= _ _ <-].
  - intros d s w r s' w'. simpl. by case_bool_decide; intros [= _ _ <-].
  - by intros d s w r s' w' [= _ _ <-].
  - exact demo_download_run.
  - reflexivity.
Defined.


(** X16 at the sample directory. *)
Lemma manifest_file_is_ascii_witness :
  ∃ data,
    file_data (w_root (create_manifest 1 ["data"] sample_stats sample_world).2)
      ["data"; "manifest.json"] = Some data ∧
    ∀ b, b ∈ data → (Byte.to_N b < 128)%N.
Proof.
  exact (manifest_file_is_ascii 1 ["data"] sample_stats sample_world _ _
           sample_run).
Defined.


(** X17 at the directory with [cves.parquet], the second run a little
    later. *)
Lemma manifest_again_witness :
  ∃ stats files w2,
    manifest 1 byte_rows (Some ["data"])
      (at_time later_clock (manifest 1 byte_rows (Some ["data"]) cve_world).2)
    = (Return (), w2) ∧
    manifest_written (w_root w2) ["data"]
      (manifest_dict 1 (isoformat later_clock) stats files).
Proof.
  destruct (manifest_again 1 byte_rows (Some ["data"]) cve_world _ later_clock
              cve_run)
    as (stats & files & w2 & _ & Hrun2 & Hwritten & _).
  exists stats, files, w2. exact (conj Hrun2 Hwritten).
Defined.
